(** * RAG-Evaluation: dual chunker and map-reduce summarization pipeline

    A shallow embedding of
      - [document_processor/chunker.py]  (module [Chunker]),
      - [langgraph_pipeline/state.py], [nodes.py], [graph.py]  (module [Pipeline]),
      - [backend/app/api/summarize.py]  (module [Api]),
    followed by the properties of the specification that concern them.

    Python values are modelled as follows: [str] as [string], [len] as
    [String.length] / [length], offsets and page numbers as [Z] (a failed
    [str.find] is [-1] and takes part in the arithmetic that follows it),
    dictionaries with a fixed set of keys as records, a raised exception as
    the [Err] case of [result]. *)

From Stdlib Require Import ZArith String Ascii DecimalString Sorted Lia.
From stdpp Require Import base list strings gmap.

Local Open Scope Z_scope.

(** ** Exceptions and fallible computations *)

(** A Python exception, kept as the text [str(e)] gives. *)
Inductive exn : Type := Exception (msg : string).

Definition str_exn (e : exn) : string := match e with Exception msg => msg end.

Inductive result (A : Type) : Type :=
| Ok (a : A)
| Err (e : exn).
Arguments Ok {A} a.
Arguments Err {A} e.

Global Instance result_ret : MRet result := λ A a, Ok a.
Global Instance result_bind : MBind result := λ A B k r,
  match r with
  | Ok a => k a
  | Err e => Err e
  end.

Definition is_Ok {A : Type} (r : result A) : Prop := ∃ a, r = Ok a.

(** ** Python built-ins used by the code *)

Module Py.

(** The line feed character and the page separator ["\n\n"]. *)
Definition nl : string := String "010"%char EmptyString.
Definition sep : string := nl +:+ nl.

(** [len(s)] as an integer. *)
Definition len (s : string) : Z := Z.of_nat (String.length s).

(** [s.find(sub, start)]: the lowest index [i >= start] at which [sub] occurs
    in [s], or [-1]. A negative [start] counts from the end, clipped at 0. *)
Definition find (s sub : string) (start : Z) : Z :=
  let start' := if start <? 0 then Z.max (start + len s) 0 else start in
  match String.index (Z.to_nat start') sub s with
  | Some i => Z.of_nat i
  | None => -1
  end.

(** [str(n)] for an integer, as an f-string field prints it. *)
Definition str_int (n : Z) : string := NilZero.string_of_int (Z.to_int n).

(** [min(l)] and [max(l)] of a list known to be non-empty, given as head and tail. *)
Definition min_list (x : Z) (l : list Z) : Z := fold_left Z.min l x.
Definition max_list (x : Z) (l : list Z) : Z := fold_left Z.max l x.

(** [sep.join(l)]. *)
Fixpoint join (sep : string) (l : list string) : string :=
  match l with
  | [] => EmptyString
  | [x] => x
  | x :: rest => x +:+ sep +:+ join sep rest
  end.

End Py.

(** ** document_processor/chunker.py *)

Module Chunker.

(** A page dictionary as [extract_pdf_text] and [clean_pages] produce it. *)
Module Page.
Record t : Type := mk {
  page_number : Z;
  text : string;
  char_count : Z;
  word_count : Z
}.
End Page.

(** An entry of [page_markers]. *)
Module Marker.
Record t : Type := mk {
  page_number : Z;
  start_pos : Z;
  end_pos : Z
}.
End Marker.

(** A dictionary appended to [chunk_dicts] by [create_rag_chunks]. *)
Module RagChunk.
Record t : Type := mk {
  chunk_index : nat;
  text : string;
  char_count : Z;
  token_count : Z;
  page_numbers : list Z;
  page_number : option Z;
  document_id : option string;
  chunk_type : string
}.
End RagChunk.

(** A dictionary appended to [chunk_dicts] by [create_summary_chunks]. The
    pipeline reads ["page_range"] with [dict.get], so the key is optional in
    the type; the chunker always sets it. *)
Module SummaryChunk.
Record t : Type := mk {
  chunk_index : nat;
  text : string;
  char_count : Z;
  token_count : Z;
  page_numbers : list Z;
  page_range : option string;
  document_id : option string;
  chunk_type : string
}.
End SummaryChunk.

(** The loop [for page in pages_data] that both chunkers start with: one
    iteration, on the pair [(full_text, page_markers)]. *)
Definition consolidate_step (acc : string * list Marker.t) (page : Page.t)
  : string * list Marker.t :=
  let '(full_text, page_markers) := acc in
  let page_start := Py.len full_text in
  let full_text := full_text +:+ (Page.text page +:+ Py.sep) in
  (full_text,
   page_markers ++ [ {| Marker.page_number := Page.page_number page;
                        Marker.start_pos := page_start;
                        Marker.end_pos := Py.len full_text |} ]).

Definition consolidate_from (acc : string * list Marker.t) (pages_data : list Page.t)
  : string * list Marker.t :=
  fold_left consolidate_step pages_data acc.

Definition consolidate (pages_data : list Page.t) : string * list Marker.t :=
  consolidate_from (EmptyString, []) pages_data.

(** The inner loop [for marker in page_markers]. *)
Definition overlapping (page_markers : list Marker.t) (chunk_start chunk_end : Z)
  : list Z :=
  Marker.page_number <$>
    filter (λ marker, chunk_start < Marker.end_pos marker
                      ∧ chunk_end > Marker.start_pos marker) page_markers.

(** [f"{min(page_numbers)}-{max(page_numbers)}" if page_numbers else "Unknown"] *)
Definition page_range_of (page_numbers : list Z) : string :=
  match page_numbers with
  | [] => "Unknown"
  | p :: ps => Py.str_int (Py.min_list p ps) +:+ "-" +:+ Py.str_int (Py.max_list p ps)
  end.

Section Chunking.

(** The collaborators the module imports: [tiktoken] and the text splitter of
    [langchain_text_splitters]. Each call may raise. *)
Variable Encoding : Type.
Variable encoding_for_model : string → result Encoding.
Variable encode : Encoding → string → result (list nat).
(** [split_text] of the [RecursiveCharacterTextSplitter] built from
    [chunk_size] and [chunk_overlap]. *)
Variable split_text : Z → Z → string → result (list string).

Definition count_tokens (text model : string) : result Z :=
  encoding ← encoding_for_model model;
  tokens ← encode encoding text;
  Ok (Z.of_nat (length tokens)).

(** The default [model="gpt-4"] of [count_tokens]. *)
Definition count_tokens_default (text : string) : result Z := count_tokens text "gpt-4".

(** One iteration of [for idx, chunk_text in enumerate(chunks)] in
    [create_rag_chunks], on the pair [(chunk_dicts, current_position)]. *)
Definition rag_step (full_text : string) (page_markers : list Marker.t)
    (document_id : option string)
    (st : list RagChunk.t * Z) (idx : nat) (chunk_text : string)
  : result (list RagChunk.t * Z) :=
  let '(chunk_dicts, current_position) := st in
  let chunk_start := Py.find full_text chunk_text current_position in
  let chunk_end := chunk_start + Py.len chunk_text in
  let page_numbers := overlapping page_markers chunk_start chunk_end in
  token_count ← count_tokens_default chunk_text;
  Ok (chunk_dicts ++ [ {| RagChunk.chunk_index := idx;
                          RagChunk.text := chunk_text;
                          RagChunk.char_count := Py.len chunk_text;
                          RagChunk.token_count := token_count;
                          RagChunk.page_numbers := page_numbers;
                          RagChunk.page_number := head page_numbers;
                          RagChunk.document_id := document_id;
                          RagChunk.chunk_type := "rag" |} ],
      chunk_start + 1).

Fixpoint rag_loop (full_text : string) (page_markers : list Marker.t)
    (document_id : option string)
    (st : list RagChunk.t * Z) (idx : nat) (chunks : list string)
  : result (list RagChunk.t * Z) :=
  match chunks with
  | [] => Ok st
  | chunk_text :: rest =>
      st' ← rag_step full_text page_markers document_id st idx chunk_text;
      rag_loop full_text page_markers document_id st' (S idx) rest
  end.

Definition create_rag_chunks (pages_data : list Page.t)
    (chunk_size chunk_overlap : Z) (document_id : option string)
  : result (list RagChunk.t) :=
  let '(full_text, page_markers) := consolidate pages_data in
  chunks ← split_text chunk_size chunk_overlap full_text;
  st ← rag_loop full_text page_markers document_id ([], 0) 0 chunks;
  Ok st.1.

(** One iteration of the same loop in [create_summary_chunks]. *)
Definition summary_step (full_text : string) (page_markers : list Marker.t)
    (document_id : option string)
    (st : list SummaryChunk.t * Z) (idx : nat) (chunk_text : string)
  : result (list SummaryChunk.t * Z) :=
  let '(chunk_dicts, current_position) := st in
  let chunk_start := Py.find full_text chunk_text current_position in
  let chunk_end := chunk_start + Py.len chunk_text in
  let page_numbers := overlapping page_markers chunk_start chunk_end in
  let page_range := page_range_of page_numbers in
  token_count ← count_tokens_default chunk_text;
  Ok (chunk_dicts ++ [ {| SummaryChunk.chunk_index := idx;
                          SummaryChunk.text := chunk_text;
                          SummaryChunk.char_count := Py.len chunk_text;
                          SummaryChunk.token_count := token_count;
                          SummaryChunk.page_numbers := page_numbers;
                          SummaryChunk.page_range := Some page_range;
                          SummaryChunk.document_id := document_id;
                          SummaryChunk.chunk_type := "summary" |} ],
      chunk_start + 1).

Fixpoint summary_loop (full_text : string) (page_markers : list Marker.t)
    (document_id : option string)
    (st : list SummaryChunk.t * Z) (idx : nat) (chunks : list string)
  : result (list SummaryChunk.t * Z) :=
  match chunks with
  | [] => Ok st
  | chunk_text :: rest =>
      st' ← summary_step full_text page_markers document_id st idx chunk_text;
      summary_loop full_text page_markers document_id st' (S idx) rest
  end.

Definition create_summary_chunks (pages_data : list Page.t)
    (chunk_size chunk_overlap : Z) (document_id : option string)
  : result (list SummaryChunk.t) :=
  let '(full_text, page_markers) := consolidate pages_data in
  chunks ← split_text chunk_size chunk_overlap full_text;
  st ← summary_loop full_text page_markers document_id ([], 0) 0 chunks;
  Ok st.1.

End Chunking.

Arguments count_tokens {Encoding} encoding_for_model encode text model.
Arguments count_tokens_default {Encoding} encoding_for_model encode text.
Arguments rag_step {Encoding} encoding_for_model encode
  full_text page_markers document_id st idx chunk_text.
Arguments rag_loop {Encoding} encoding_for_model encode
  full_text page_markers document_id st idx chunks.
Arguments create_rag_chunks {Encoding} encoding_for_model encode split_text
  pages_data chunk_size chunk_overlap document_id.
Arguments summary_step {Encoding} encoding_for_model encode
  full_text page_markers document_id st idx chunk_text.
Arguments summary_loop {Encoding} encoding_for_model encode
  full_text page_markers document_id st idx chunks.
Arguments create_summary_chunks {Encoding} encoding_for_model encode split_text
  pages_data chunk_size chunk_overlap document_id.

(** [pos] is the first occurrence of [sub] in [s] at or after [start]. *)
Definition first_occurrence (s sub : string) (start pos : Z) : Prop :=
  start ≤ pos
  ∧ substring (Z.to_nat pos) (String.length sub) s = sub
  ∧ ∀ p, start ≤ p < pos → substring (Z.to_nat p) (String.length sub) s ≠ sub.

(** [sub] does not occur in [s] at or after [start]. *)
Definition no_occurrence (s sub : string) (start : Z) : Prop :=
  ∀ p, start ≤ p → substring (Z.to_nat p) (String.length sub) s ≠ sub.

(** What the result [pos] of a lookup from [start] stands for: an offset is
    the first occurrence there, and [-1] means that a non-empty [sub] has
    none. *)
Definition located (s sub : string) (start pos : Z) : Prop :=
  -1 ≤ pos
  ∧ (0 ≤ pos → first_occurrence s sub start pos)
  ∧ (pos = -1 → sub ≠ EmptyString → no_occurrence s sub start).

End Chunker.

(** ** langgraph_pipeline/state.py, nodes.py, graph.py *)

Module Pipeline.

Import Chunker.

(** [document_metadata], as [get_pdf_metadata] builds it; the reduce node
    reads ["title"] and ["page_count"] with [dict.get]. *)
Module Metadata.
Record t : Type := mk {
  title : option string;
  page_count : option Z
}.
End Metadata.

(** [class DocumentState(TypedDict)] *)
Module DocumentState.
Record t : Type := mk {
  document_id : string;
  document_metadata : Metadata.t;
  large_chunks : list SummaryChunk.t;
  total_chunks : nat;
  chunk_summaries : list string;
  summaries_completed : nat;
  final_summary : string;
  status : string;
  error_message : option string
}.

(** The assignments [state[key] = value] the nodes make. *)
Definition set_status (v : string) (s : t) : t :=
  mk (document_id s) (document_metadata s) (large_chunks s) (total_chunks s)
     (chunk_summaries s) (summaries_completed s) (final_summary s) v (error_message s).
Definition set_total_chunks (v : nat) (s : t) : t :=
  mk (document_id s) (document_metadata s) (large_chunks s) v
     (chunk_summaries s) (summaries_completed s) (final_summary s) (status s)
     (error_message s).
Definition set_chunk_summaries (v : list string) (s : t) : t :=
  mk (document_id s) (document_metadata s) (large_chunks s) (total_chunks s)
     v (summaries_completed s) (final_summary s) (status s) (error_message s).
Definition set_summaries_completed (v : nat) (s : t) : t :=
  mk (document_id s) (document_metadata s) (large_chunks s) (total_chunks s)
     (chunk_summaries s) v (final_summary s) (status s) (error_message s).
Definition set_final_summary (v : string) (s : t) : t :=
  mk (document_id s) (document_metadata s) (large_chunks s) (total_chunks s)
     (chunk_summaries s) (summaries_completed s) v (status s) (error_message s).
End DocumentState.

Import DocumentState.

(** The variables a prompt template is invoked with. *)
Inductive prompt : Type :=
| SectionPrompt (chunk_index total_chunks : nat) (page_range : string)
    (char_count : Z) (chunk_text : string)
| SynthesisPrompt (title page_count : string) (section_count : nat)
    (concatenated_summaries : string).

(** What a node does with the state dictionary it was handed: it returns it,
    or an exception leaves it, the dictionary being as mutated so far. *)
Inductive outcome : Type :=
| Returned (state : DocumentState.t)
| Raised (e : exn) (state : DocumentState.t).

Definition distribute_chunks (state : DocumentState.t) : DocumentState.t :=
  let state := set_status "mapping" state in
  let state := set_total_chunks (length (large_chunks state)) state in
  let state := set_chunk_summaries [] state in
  let state := set_summaries_completed 0 state in
  state.

(** [asyncio.gather] over the tasks, with [return_exceptions=False]. The tasks run
    concurrently; [order] is the order in which they complete. The first task
    to complete with an exception makes [gather] raise it; when none does,
    the results come back in the order of the tasks. *)
Fixpoint first_raised (order : list nat) (tasks : list (result string)) : option exn :=
  match order with
  | [] => None
  | i :: rest =>
      match tasks !! i with
      | Some (Err e) => Some e
      | _ => first_raised rest tasks
      end
  end.

Fixpoint collect (tasks : list (result string)) : result (list string) :=
  match tasks with
  | [] => Ok []
  | r :: rest => x ← r; xs ← collect rest; Ok (x :: xs)
  end.

Definition gather (order : list nat) (tasks : list (result string))
  : result (list string) :=
  match first_raised order tasks with
  | Some e => Err e
  | None => collect tasks
  end.

(** [order] is a completion order of [n] tasks. *)
Definition completion_order (order : list nat) (n : nat) : Prop :=
  order ≡ₚ seq 0 n.

Section Nodes.

(** The language model behind [chain.ainvoke] / [chain.invoke]: the content
    of its response to a prompt, or the exception of the call. *)
Variable llm : prompt → result string.

Definition summarize_chunk_async (chunk : SummaryChunk.t) (total_chunks : nat)
  : result string :=
  llm (SectionPrompt (SummaryChunk.chunk_index chunk + 1) total_chunks
         (default "Unknown" (SummaryChunk.page_range chunk))
         (SummaryChunk.char_count chunk)
         (SummaryChunk.text chunk)).

(** The tasks [map_summarize] hands to [gather]. *)
Definition map_tasks (state : DocumentState.t) : list (result string) :=
  (λ chunk, summarize_chunk_async chunk (total_chunks state)) <$> large_chunks state.

Definition map_summarize (order : list nat) (state : DocumentState.t) : outcome :=
  let chunks := large_chunks state in
  let total_chunks := total_chunks state in
  let tasks := (λ chunk, summarize_chunk_async chunk total_chunks) <$> chunks in
  match gather order tasks with
  | Err e => Raised e state
  | Ok summaries =>
      let state := set_chunk_summaries summaries state in
      let state := set_summaries_completed (length summaries) state in
      let state := set_status "reducing" state in
      Returned state
  end.

(** [f"SECTION {i+1} SUMMARY:\n{summary}" for i, summary in enumerate(summaries)] *)
Definition section_label (i : nat) (summary : string) : string :=
  "SECTION " +:+ Py.str_int (Z.of_nat i + 1) +:+ " SUMMARY:" +:+ Py.nl +:+ summary.

Definition reduce_synthesize (state : DocumentState.t) : outcome :=
  let summaries := chunk_summaries state in
  let metadata := document_metadata state in
  let concatenated :=
    Py.join (Py.sep +:+ "---" +:+ Py.sep) (imap section_label summaries) in
  match llm (SynthesisPrompt
               (default "Unknown Document" (Metadata.title metadata))
               (from_option Py.str_int "Unknown" (Metadata.page_count metadata))
               (length summaries)
               concatenated) with
  | Err e => Raised e state
  | Ok content =>
      let state := set_final_summary content state in
      let state := set_status "complete" state in
      Returned state
  end.

(** [create_summarization_graph().ainvoke]: the entry point and the edges
    distribute -> map_summarize -> reduce_synthesize -> END. *)
Definition ainvoke (order : list nat) (initial_state : DocumentState.t) : outcome :=
  match map_summarize order (distribute_chunks initial_state) with
  | Raised e state => Raised e state
  | Returned state => reduce_synthesize state
  end.

End Nodes.

End Pipeline.

(** ** backend/app/api/summarize.py *)

Module Api.

Import Chunker Pipeline.

(** An entry of [documents_db], as [upload_document] stores it (the keys the
    summarization endpoint reads or writes). *)
Module DocData.
Record t : Type := mk {
  metadata : Metadata.t;
  summary_chunks : list SummaryChunk.t;
  status : string;
  summary : option string
}.
End DocData.

Inductive response : Type :=
| JSONResponse (status_code : Z) (status : string) (summary : string)
    (chunks_processed : option nat)
| HTTPException (status_code : Z) (detail : string).

Section Summarize.

Variable llm : prompt → result string.

Definition summarize_document (order : list nat) (doc_id : string)
    (documents_db : gmap string DocData.t) : response * gmap string DocData.t :=
  match documents_db !! doc_id with
  | None => (HTTPException 404 "Document not found", documents_db)
  | Some doc_data =>
      match DocData.summary doc_data with
      | Some (String c s) =>
          (JSONResponse 200 "already_summarized" (String c s) None, documents_db)
      | _ =>
          let initial_state :=
            {| DocumentState.document_id := doc_id;
               DocumentState.document_metadata := DocData.metadata doc_data;
               DocumentState.large_chunks := DocData.summary_chunks doc_data;
               DocumentState.total_chunks := 0;
               DocumentState.chunk_summaries := [];
               DocumentState.summaries_completed := 0;
               DocumentState.final_summary := EmptyString;
               DocumentState.status := "distributing";
               DocumentState.error_message := None |} in
          match ainvoke llm order initial_state with
          | Returned final_state =>
              let doc_data :=
                {| DocData.metadata := DocData.metadata doc_data;
                   DocData.summary_chunks := DocData.summary_chunks doc_data;
                   DocData.status := "summarized";
                   DocData.summary := Some (DocumentState.final_summary final_state) |} in
              (JSONResponse 200 "complete" (DocumentState.final_summary final_state)
                 (Some (DocumentState.summaries_completed final_state)),
               <[doc_id := doc_data]> documents_db)
          | Raised e _ =>
              let doc_data :=
                {| DocData.metadata := DocData.metadata doc_data;
                   DocData.summary_chunks := DocData.summary_chunks doc_data;
                   DocData.status := "error";
                   DocData.summary := DocData.summary doc_data |} in
              (HTTPException 500 ("Error during summarization: " +:+ str_exn e),
               <[doc_id := doc_data]> documents_db)
          end
      end
  end.

End Summarize.

End Api.

(** ** backend/app/api: the read endpoints *)

Module Endpoints.

Import Chunker Pipeline Api.

(** The dictionary [get_summarization_status] returns. *)
Module StatusReport.
Record t : Type := mk {
  document_id : string;
  status : string;
  has_summary : bool;
  summary : option string
}.
End StatusReport.

(** [get_summarization_status]: [has_summary] is [doc_data["summary"] is not
    None], whatever the text of the summary. *)
Definition get_summarization_status (document_id : string)
    (documents_db : gmap string DocData.t) : response + StatusReport.t :=
  match documents_db !! document_id with
  | None => inl (HTTPException 404 "Document not found")
  | Some doc_data =>
      inr {| StatusReport.document_id := document_id;
             StatusReport.status := DocData.status doc_data;
             StatusReport.has_summary :=
               match DocData.summary doc_data with Some _ => true | None => false end;
             StatusReport.summary := DocData.summary doc_data |}
  end.

End Endpoints.

(** ** More of Python's [str] *)

Module PyText.

(** [c.isspace()] for a character below 256: the ASCII white space, the
    separators 0x1c to 0x1f, NEL and the no-break space. *)
Definition isspace (c : ascii) : bool :=
  let n := N_of_ascii c in
  (((9 <=? n) && (n <=? 13)) || ((28 <=? n) && (n <=? 32))
   || (n =? 133) || (n =? 160))%N.

(** The word being read, kept in reverse, as a list of at most one word. *)
Definition flush (word : string) : list string :=
  match word with
  | EmptyString => []
  | _ => [String.rev word]
  end.

(** [s.split()]: the maximal runs of characters that are not white space. *)
Fixpoint split_go (word : string) (s : string) : list string :=
  match s with
  | EmptyString => flush word
  | String c rest =>
      if isspace c then flush word ++ split_go EmptyString rest
      else split_go (String c word) rest
  end.

Definition split (s : string) : list string := split_go EmptyString s.

End PyText.

(** ** document_processor/extractor.py *)

Module Extractor.

Import Chunker.

Section Extract.

(** The file system and pypdf: whether the path exists, what [str] gives for
    the [Path], and the reader, whose pages each yield their text or raise
    in [extract_text]. *)
Variable path_exists : string → bool.
Variable path_str : string → string.
Variable PdfReader : string → result (list (result string)).

(** The loop [for page_num, page in enumerate(reader.pages)], on
    [pages_data]. *)
Fixpoint extract_loop (page_num : nat) (pages : list (result string))
    (pages_data : list Page.t) : result (list Page.t) :=
  match pages with
  | [] => Ok pages_data
  | page :: rest =>
      text ← page;
      let char_count := Py.len text in
      let word_count := Z.of_nat (length (PyText.split text)) in
      extract_loop (S page_num) rest
        (pages_data ++ [ {| Page.page_number := Z.of_nat page_num + 1;
                            Page.text := text;
                            Page.char_count := char_count;
                            Page.word_count := word_count |} ])
  end.

Definition extract_pdf_text (pdf_path : string) : result (list Page.t) :=
  if negb (path_exists pdf_path)
  then Err (Exception ("PDF file not found: " +:+ path_str pdf_path))
  else
    pages ← PdfReader pdf_path;
    extract_loop 0 pages [].

End Extract.

End Extractor.

(** ** document_processor/cleaner.py *)

Module Cleaner.

Import Chunker.

(** *** The regular expressions of [clean_text]

    [re.sub] replaces the leftmost matches, each taken as long as the
    greedy pattern allows. In the three patterns the classes that follow one
    another are disjoint, so a match is found by taking maximal runs. *)

Definition isdigit (c : ascii) : bool :=
  let n := N_of_ascii c in ((48 <=? n) && (n <=? 57))%N.

(** Equality of two characters under [re.IGNORECASE], for a lower-case
    letter [l] of the pattern. *)
Definition eq_nocase (l c : ascii) : bool :=
  let n := N_of_ascii c in
  (N_of_ascii l =? (if (65 <=? n) && (n <=? 90) then n + 32 else n))%N.

(** How many leading characters of [s] satisfy [p]. *)
Fixpoint span_len (p : ascii → bool) (s : string) : nat :=
  match s with
  | EmptyString => 0
  | String c rest => if p c then S (span_len p rest) else 0
  end.

Fixpoint drop_str (n : nat) (s : string) : string :=
  match n, s with
  | O, _ => s
  | S n', EmptyString => EmptyString
  | S n', String _ rest => drop_str n' rest
  end.

(** Whether [s] starts with the letters [word], in either case. *)
Fixpoint starts_nocase (word s : string) : bool :=
  match word, s with
  | EmptyString, _ => true
  | String l word', String c rest => eq_nocase l c && starts_nocase word' rest
  | String _ _, EmptyString => false
  end.

(** The length of a match of [(\s+of\s+\d+)?] at the start of [s]: 0 when
    the group does not match. *)
Definition of_len (s : string) : nat :=
  let w2 := span_len PyText.isspace s in
  let s2 := drop_str w2 s in
  let w3 := span_len PyText.isspace (drop_str 2 s2) in
  let d2 := span_len isdigit (drop_str w3 (drop_str 2 s2)) in
  if (0 <? w2)%nat && starts_nocase "of" s2 && (0 <? w3)%nat && (0 <? d2)%nat
  then (w2 + 2 + w3 + d2)%nat
  else 0%nat.

(** The length of a match of [Page\s+\d+(\s+of\s+\d+)?] at the start of
    [s], if there is one. *)
Definition header_len (s : string) : option nat :=
  let s1 := drop_str 4 s in
  let w1 := span_len PyText.isspace s1 in
  let d1 := span_len isdigit (drop_str w1 s1) in
  if starts_nocase "page" s && (0 <? w1)%nat && (0 <? d1)%nat
  then Some (4 + w1 + d1 + of_len (drop_str d1 (drop_str w1 s1)))%nat
  else None.

(** [re.sub(r'Page\s+\d+(\s+of\s+\d+)?', '', text, flags=re.IGNORECASE)];
    [skip] characters of a match are still to be dropped. *)
Fixpoint remove_headers_go (skip : nat) (s : string) : string :=
  match s with
  | EmptyString => EmptyString
  | String c rest =>
      match skip with
      | S skip' => remove_headers_go skip' rest
      | O =>
          match header_len s with
          | Some n => remove_headers_go (pred n) rest
          | None => String c (remove_headers_go 0 rest)
          end
      end
  end.

Definition remove_headers (text : string) : string := remove_headers_go 0 text.

Definition is_nl (c : ascii) : bool := (N_of_ascii c =? 10)%N.
Definition is_blank (c : ascii) : bool :=
  let n := N_of_ascii c in ((n =? 32) || (n =? 9))%N.
Definition is_ff (c : ascii) : bool := (N_of_ascii c =? 12)%N.

(** [re.sub(r'\n{3,}', '\n\n', text)]: of every run of line feeds at most
    two are kept; [seen] counts those of the current run already kept. *)
Fixpoint squeeze_newlines_go (seen : nat) (s : string) : string :=
  match s with
  | EmptyString => EmptyString
  | String c rest =>
      if is_nl c then
        if (seen <? 2)%nat then String c (squeeze_newlines_go (S seen) rest)
        else squeeze_newlines_go seen rest
      else String c (squeeze_newlines_go 0 rest)
  end.

Definition squeeze_newlines (text : string) : string := squeeze_newlines_go 0 text.

(** [re.sub(r'[ \t]+', ' ', text)]: every run of spaces and tabs becomes one
    space; [in_run] tells that the run has been replaced already. *)
Fixpoint squeeze_blanks_go (in_run : bool) (s : string) : string :=
  match s with
  | EmptyString => EmptyString
  | String c rest =>
      if is_blank c then
        if in_run then squeeze_blanks_go true rest
        else String " " (squeeze_blanks_go true rest)
      else String c (squeeze_blanks_go false rest)
  end.

Definition squeeze_blanks (text : string) : string := squeeze_blanks_go false text.

(** *** The string methods of [clean_text] *)

(** [s.lstrip()], [s.rstrip()] and [s.strip()]. *)
Fixpoint lstrip (s : string) : string :=
  match s with
  | EmptyString => EmptyString
  | String c rest => if PyText.isspace c then lstrip rest else s
  end.

Fixpoint rstrip (s : string) : string :=
  match s with
  | EmptyString => EmptyString
  | String c rest =>
      match rstrip rest with
      | EmptyString => if PyText.isspace c then EmptyString else String c EmptyString
      | kept => String c kept
      end
  end.

Definition strip (s : string) : string := rstrip (lstrip s).

(** [s.split('\n')]: the lines of [s]; [line] is the line being read, in
    reverse. *)
Fixpoint split_lines_go (line : string) (s : string) : list string :=
  match s with
  | EmptyString => [String.rev line]
  | String c rest =>
      if is_nl c then String.rev line :: split_lines_go EmptyString rest
      else split_lines_go (String c line) rest
  end.

Definition split_lines (s : string) : list string := split_lines_go EmptyString s.

(** [s.replace('\f', '')] *)
Fixpoint remove_ff (s : string) : string :=
  match s with
  | EmptyString => EmptyString
  | String c rest => if is_ff c then remove_ff rest else String c (remove_ff rest)
  end.

Definition clean_text (text : string) : string :=
  let text := remove_headers text in
  let text := squeeze_newlines text in
  let text := squeeze_blanks text in
  let lines := strip <$> split_lines text in
  let text := Py.join Py.nl lines in
  let text := remove_ff text in
  strip text.

(** One page of [clean_pages]: the copy of the page with its text cleaned
    and its counts taken again. *)
Definition clean_page (page : Page.t) : Page.t :=
  let cleaned_text := clean_text (Page.text page) in
  {| Page.page_number := Page.page_number page;
     Page.text := cleaned_text;
     Page.char_count := Py.len cleaned_text;
     Page.word_count := Z.of_nat (length (PyText.split cleaned_text)) |}.

Definition clean_pages (pages_data : list Page.t) : list Page.t :=
  clean_page <$> pages_data.

End Cleaner.

(** ** Closed forms used in the statements *)

Module Closed.

Import Chunker.

(** The pages' texts, each followed by the separator, in order. *)
Fixpoint buffer_of (pages : list Page.t) : string :=
  match pages with
  | [] => EmptyString
  | page :: rest => Page.text page +:+ Py.sep +:+ buffer_of rest
  end.

(** The dictionary [extract_pdf_text] appends for the page at position [i]
    of the reader, whose text is [text]. *)
Definition extracted_page (i : nat) (text : string) : Page.t :=
  {| Page.page_number := Z.of_nat i + 1;
     Page.text := text;
     Page.char_count := Py.len text;
     Page.word_count := Z.of_nat (length (PyText.split text)) |}.

Section Chunks.

Context {Encoding : Type}.
Variable encoding_for_model : string → result Encoding.
Variable encode : Encoding → string → result (list nat).

Implicit Types (full_text : string) (page_markers : list Marker.t)
  (document_id : option string) (idx : nat) (cur : Z).

(** What a chunk of [create_rag_chunks] is, for the segment [t] looked up
    from [cur]. *)
Definition rag_chunk_ok full_text page_markers document_id idx t cur
    (c : RagChunk.t) : Prop :=
  RagChunk.chunk_index c = idx
  ∧ RagChunk.text c = t
  ∧ RagChunk.char_count c = Py.len t
  ∧ count_tokens_default encoding_for_model encode t = Ok (RagChunk.token_count c)
  ∧ RagChunk.page_numbers c
    = overlapping page_markers (Py.find full_text t cur)
        (Py.find full_text t cur + Py.len t)
  ∧ RagChunk.page_number c = head (RagChunk.page_numbers c)
  ∧ RagChunk.document_id c = document_id
  ∧ RagChunk.chunk_type c = "rag".

Definition summary_chunk_ok full_text page_markers document_id idx t cur
    (c : SummaryChunk.t) : Prop :=
  SummaryChunk.chunk_index c = idx
  ∧ SummaryChunk.text c = t
  ∧ SummaryChunk.char_count c = Py.len t
  ∧ count_tokens_default encoding_for_model encode t = Ok (SummaryChunk.token_count c)
  ∧ SummaryChunk.page_numbers c
    = overlapping page_markers (Py.find full_text t cur)
        (Py.find full_text t cur + Py.len t)
  ∧ SummaryChunk.page_range c = Some (page_range_of (SummaryChunk.page_numbers c))
  ∧ SummaryChunk.document_id c = document_id
  ∧ SummaryChunk.chunk_type c = "summary".

End Chunks.

(** The state [summarize_document] hands to the graph. *)
Definition initial_state (doc_id : string) (doc_data : Api.DocData.t)
  : Pipeline.DocumentState.t :=
  {| Pipeline.DocumentState.document_id := doc_id;
     Pipeline.DocumentState.document_metadata := Api.DocData.metadata doc_data;
     Pipeline.DocumentState.large_chunks := Api.DocData.summary_chunks doc_data;
     Pipeline.DocumentState.total_chunks := 0;
     Pipeline.DocumentState.chunk_summaries := [];
     Pipeline.DocumentState.summaries_completed := 0;
     Pipeline.DocumentState.final_summary := EmptyString;
     Pipeline.DocumentState.status := "distributing";
     Pipeline.DocumentState.error_message := None |}.

(** [doc_data.get("summary")] is true: the document has a summary that is
    not the empty text. *)
Definition summarized (doc_data : Api.DocData.t) : Prop :=
  ∃ c s, Api.DocData.summary doc_data = Some (String c s).

End Closed.

(** * Concrete inputs

    Small documents, states and collaborators on which the properties below
    are evaluated. *)

Module Fixtures.

Import Chunker Pipeline Api.

(** The state [summarize_document] starts from, for a document without
    summary chunks. *)
Definition empty_document_state : DocumentState.t :=
  {| DocumentState.document_id := "doc";
     DocumentState.document_metadata := Metadata.mk None None;
     DocumentState.large_chunks := [];
     DocumentState.total_chunks := 0;
     DocumentState.chunk_summaries := [];
     DocumentState.summaries_completed := 0;
     DocumentState.final_summary := EmptyString;
     DocumentState.status := "distributing";
     DocumentState.error_message := None |}.

Definition chunk_a : SummaryChunk.t :=
  {| SummaryChunk.chunk_index := 0;
     SummaryChunk.text := "alpha";
     SummaryChunk.char_count := 5;
     SummaryChunk.token_count := 1;
     SummaryChunk.page_numbers := [1];
     SummaryChunk.page_range := Some "1-1";
     SummaryChunk.document_id := Some "doc";
     SummaryChunk.chunk_type := "summary" |}.

Definition chunk_b : SummaryChunk.t :=
  {| SummaryChunk.chunk_index := 1;
     SummaryChunk.text := "beta";
     SummaryChunk.char_count := 4;
     SummaryChunk.token_count := 1;
     SummaryChunk.page_numbers := [1; 2];
     SummaryChunk.page_range := Some "1-2";
     SummaryChunk.document_id := Some "doc";
     SummaryChunk.chunk_type := "summary" |}.

(** The state [summarize_document] starts from for a document of two summary
    chunks, and the same state after the distribute stage. *)
Definition two_chunk_state : DocumentState.t :=
  {| DocumentState.document_id := "doc";
     DocumentState.document_metadata := Metadata.mk (Some "Report") (Some 2);
     DocumentState.large_chunks := [chunk_a; chunk_b];
     DocumentState.total_chunks := 0;
     DocumentState.chunk_summaries := [];
     DocumentState.summaries_completed := 0;
     DocumentState.final_summary := EmptyString;
     DocumentState.status := "distributing";
     DocumentState.error_message := None |}.

Definition two_chunk_mapping : DocumentState.t := distribute_chunks two_chunk_state.

(** A model that answers every prompt with the text it was given. *)
Definition llm_echo (p : prompt) : result string :=
  match p with
  | SectionPrompt _ _ _ _ chunk_text => Ok chunk_text
  | SynthesisPrompt _ _ _ concatenated_summaries => Ok concatenated_summaries
  end.

(** A model whose call for the second section fails. *)
Definition llm_flaky (p : prompt) : result string :=
  match p with
  | SectionPrompt 2 _ _ _ _ => Err (Exception "rate limit")
  | SectionPrompt _ _ _ _ chunk_text => Ok chunk_text
  | SynthesisPrompt _ _ _ concatenated_summaries => Ok concatenated_summaries
  end.

(** Pages as the extractor numbers them. *)
Definition page_of (n : Z) (text : string) : Page.t :=
  {| Page.page_number := n;
     Page.text := text;
     Page.char_count := Py.len text;
     Page.word_count := 1 |}.

Definition single_page : list Page.t := [page_of 1 "abc"].

Definition three_pages : list Page.t :=
  [page_of 1 "abc"; page_of 2 "de"; page_of 3 "fghi"].

(** Collaborators: a tokenizer that yields one token per character, one
    whose encoding cannot be loaded, and a splitter that returns the given
    segments. *)
Definition encoding_ok (model : string) : result unit := Ok ().
Definition encoding_down (model : string) : result unit :=
  Err (Exception "encoding unavailable").
Definition encode_chars (encoding : unit) (text : string) : result (list nat) :=
  Ok (replicate (String.length text) 0%nat).
Definition splitter_of (segments : list string) (chunk_size chunk_overlap : Z)
    (text : string) : result (list string) :=
  Ok segments.

End Fixtures.

(** Further inputs. *)

Module MoreFixtures.

Import Chunker Pipeline Api Extractor Fixtures.

(** A store with one uploaded document of two summary chunks. *)
Definition uploaded_doc : DocData.t :=
  {| DocData.metadata := Metadata.mk (Some "Report") (Some 2);
     DocData.summary_chunks := [chunk_a; chunk_b];
     DocData.status := "uploaded";
     DocData.summary := None |}.

Definition one_document : gmap string DocData.t := {[ "doc" := uploaded_doc ]}.

(** A model whose synthesis call fails. *)
Definition llm_no_synthesis (p : prompt) : result string :=
  match p with
  | SectionPrompt _ _ _ _ chunk_text => Ok chunk_text
  | SynthesisPrompt _ _ _ _ => Err (Exception "context too long")
  end.

(** A model that returns the empty text. *)
Definition llm_silent (p : prompt) : result string := Ok EmptyString.

(** A reader of a file of two pages; only ["report.pdf"] exists. *)
Definition only_report (path : string) : bool := String.eqb path "report.pdf".
Definition reader_two_pages (path : string) : result (list (result string)) :=
  Ok [Ok "first page"; Ok "second  page text"].

(** What a chunker returned, or no chunk. *)
Definition chunks_of {A : Type} (r : result (list A)) : list A :=
  match r with
  | Ok l => l
  | Err _ => []
  end.

(** The three pages cut at the page boundaries, and their chunks. *)
Definition three_segments : list string := ["abc"; "de"; "fghi"].

Definition three_rag_chunks : list RagChunk.t :=
  Eval vm_compute in
    chunks_of (create_rag_chunks encoding_ok encode_chars (splitter_of three_segments)
                 three_pages 1000 100 (Some "doc")).

Definition three_summary_chunks : list SummaryChunk.t :=
  Eval vm_compute in
    chunks_of (create_summary_chunks encoding_ok encode_chars
                 (splitter_of three_segments) three_pages 1000 100 (Some "doc")).

Definition rag_chunk_abc : RagChunk.t :=
  {| RagChunk.chunk_index := 0;
     RagChunk.text := "abc";
     RagChunk.char_count := 3;
     RagChunk.token_count := 3;
     RagChunk.page_numbers := [1];
     RagChunk.page_number := Some 1;
     RagChunk.document_id := None;
     RagChunk.chunk_type := "rag" |}.

Definition summary_chunk_abc : SummaryChunk.t :=
  {| SummaryChunk.chunk_index := 0;
     SummaryChunk.text := "abc";
     SummaryChunk.char_count := 3;
     SummaryChunk.token_count := 3;
     SummaryChunk.page_numbers := [1];
     SummaryChunk.page_range := Some "1-1";
     SummaryChunk.document_id := None;
     SummaryChunk.chunk_type := "summary" |}.

(** The chunk lists after the second segment. *)
Definition rag_after_de : list RagChunk.t :=
  Eval vm_compute in
    match rag_loop encoding_ok encode_chars (consolidate three_pages).1
            (consolidate three_pages).2 None ([], 0) 0 ["abc"; "de"] with
    | Ok st => st.1
    | Err _ => []
    end.

Definition summary_after_de : list SummaryChunk.t :=
  Eval vm_compute in
    match summary_loop encoding_ok encode_chars (consolidate three_pages).1
            (consolidate three_pages).2 None ([], 0) 0 ["abc"; "de"] with
    | Ok st => st.1
    | Err _ => []
    end.

(** The summary the echoing model gives for the document of two chunks. *)
Definition echo_summary : string :=
  Eval vm_compute in
    match ainvoke llm_echo [0; 1]%nat two_chunk_state with
    | Returned final => DocumentState.final_summary final
    | Raised _ _ => EmptyString
    end.

Definition summarized_doc : DocData.t :=
  {| DocData.metadata := Metadata.mk (Some "Report") (Some 2);
     DocData.summary_chunks := [chunk_a; chunk_b];
     DocData.status := "summarized";
     DocData.summary := Some echo_summary |}.

Definition failed_doc : DocData.t :=
  {| DocData.metadata := Metadata.mk (Some "Report") (Some 2);
     DocData.summary_chunks := [chunk_a; chunk_b];
     DocData.status := "error";
     DocData.summary := None |}.

(** A document whose stored summary is the empty text. *)
Definition silent_doc : DocData.t :=
  {| DocData.metadata := Metadata.mk (Some "Report") (Some 2);
     DocData.summary_chunks := [chunk_a; chunk_b];
     DocData.status := "summarized";
     DocData.summary := Some EmptyString |}.

(** A reader whose second page cannot be read. *)
Definition reader_broken (path : string) : result (list (result string)) :=
  Ok [Ok "first page"; Err (Exception "damaged page"); Ok "third"].

Definition same_path (path : string) : string := path.

Definition two_extracted : list Page.t :=
  Eval vm_compute in
    chunks_of (extract_pdf_text only_report same_path reader_two_pages "report.pdf").

Definition two_segments : list string := ["first page"; "second page text"].

Definition two_rag_chunks : list RagChunk.t :=
  Eval vm_compute in
    chunks_of (create_rag_chunks encoding_ok encode_chars (splitter_of two_segments)
                 (Cleaner.clean_pages two_extracted) 1000 100 (Some "doc")).

Definition two_summary_chunks : list SummaryChunk.t :=
  Eval vm_compute in
    chunks_of (create_summary_chunks encoding_ok encode_chars
                 (splitter_of two_segments) (Cleaner.clean_pages two_extracted)
                 15000 500 (Some "doc")).

(** The chunks of the second segment. *)
Definition rag_chunk_de : RagChunk.t :=
  Eval vm_compute in default rag_chunk_abc (three_rag_chunks !! 1%nat).

Definition summary_chunk_de : SummaryChunk.t :=
  Eval vm_compute in default summary_chunk_abc (three_summary_chunks !! 1%nat).

(** Two pages handed over in the reverse of their page order. *)
Definition pages_out_of_order : list Page.t := [page_of 2 "de"; page_of 1 "abc"].

End MoreFixtures.

(** * Properties *)

Import Chunker Pipeline Api Fixtures.
Import Endpoints Extractor Cleaner Closed MoreFixtures.

(** ** Fallible computations *)

Lemma bind_Ok_inv {A B : Type} (r : result A) (k : A → result B) (b : B) :
  (r ≫= k) = Ok b → ∃ a, r = Ok a ∧ k a = Ok b.
Proof. destruct r as [a|e]; [eauto | discriminate]. Qed.

Lemma bind_Ok {A B : Type} (a : A) (k : A → result B) : (Ok a ≫= k) = k a.
Proof. reflexivity. Qed.

Lemma is_Ok_dec {A : Type} (r : result A) : is_Ok r ∨ ∃ e, r = Err e.
Proof. destruct r as [a|e]; [left; by exists a | right; by exists e]. Qed.

(** ** The join of the map stage *)

Section Gather.

Implicit Types (tasks : list (result string)) (order : list nat).

Lemma first_raised_None order tasks :
  Forall is_Ok tasks → first_raised order tasks = None.
Proof.
  intros Hall. induction order as [|i rest IH]; [done|]. simpl.
  destruct (tasks !! i) as [[x|e]|] eqn:Hi; try done.
  apply (Forall_lookup_1 _ _ _ _ Hall) in Hi. destruct Hi as [x Hx]. discriminate.
Qed.

Lemma first_raised_Some order tasks e :
  first_raised order tasks = Some e → ∃ i, i ∈ order ∧ tasks !! i = Some (Err e).
Proof.
  induction order as [|i rest IH]; [done|]. simpl.
  destruct (tasks !! i) as [[x|e']|] eqn:Hi.
  - intros [j [??]]%IH. exists j. split; [by right | done].
  - intros [= ->]. exists i. split; [by left | done].
  - intros [j [??]]%IH. exists j. split; [by right | done].
Qed.

Lemma first_raised_elem order tasks i e :
  i ∈ order → tasks !! i = Some (Err e) → is_Some (first_raised order tasks).
Proof.
  intros Hin Hi. induction order as [|j rest IH]; [by apply elem_of_nil in Hin|].
  simpl. destruct (decide (j = i)) as [->|Hne].
  - rewrite Hi. by eexists.
  - destruct (tasks !! j) as [[x|e']|]; [| by eexists |];
      apply IH; apply elem_of_cons in Hin as [?|?]; done.
Qed.

Lemma collect_Ok tasks xs :
  collect tasks = Ok xs ↔ tasks = Ok <$> xs.
Proof.
  revert xs. induction tasks as [|r rest IH]; intros xs; simpl.
  - split; [intros [= <-]; done | by destruct xs].
  - split.
    + intros (x & -> & (ys & Hys & [= <-])%bind_Ok_inv)%bind_Ok_inv.
      apply IH in Hys as ->. done.
    + destruct xs as [|x ys]; [done|]. intros [= -> Hrest].
      apply IH in Hrest. simpl. rewrite Hrest. done.
Qed.

Lemma collect_all_Ok tasks :
  Forall is_Ok tasks → ∃ xs, collect tasks = Ok xs.
Proof.
  induction 1 as [|r rest [x ->] _ [xs IH]]; simpl; [by eexists|].
  rewrite IH. by eexists.
Qed.

(** When every task succeeds, [gather] returns their results in the order of
    the tasks, whatever the completion order. *)
Lemma gather_all_Ok order tasks :
  Forall is_Ok tasks → ∃ xs, gather order tasks = Ok xs ∧ tasks = Ok <$> xs.
Proof.
  intros Hall. unfold gather. rewrite first_raised_None; [|done].
  destruct (collect_all_Ok tasks Hall) as [xs Hxs].
  exists xs. split; [done | by apply collect_Ok].
Qed.

(** When some task fails, [gather] raises the exception of one of them. *)
Lemma gather_raises order tasks i e :
  completion_order order (length tasks) → tasks !! i = Some (Err e) →
  ∃ j e', tasks !! j = Some (Err e') ∧ gather order tasks = Err e'.
Proof.
  intros Hperm Hi.
  assert (i ∈ order) as Hin.
  { unfold completion_order in Hperm. rewrite Hperm. apply elem_of_seq.
    apply lookup_lt_Some in Hi. lia. }
  destruct (first_raised_elem order tasks i e Hin Hi) as [e' He'].
  destruct (first_raised_Some _ _ _ He') as (j & _ & Hj).
  exists j, e'. split; [done|]. unfold gather. by rewrite He'.
Qed.

End Gather.

(** ** The distribute stage *)

(** What [distribute_chunks] writes, for every input state. *)
Lemma distribute_chunks_sets (state : DocumentState.t) :
  DocumentState.status (distribute_chunks state) = "mapping"
  ∧ DocumentState.total_chunks (distribute_chunks state)
    = length (DocumentState.large_chunks state)
  ∧ DocumentState.chunk_summaries (distribute_chunks state) = []
  ∧ DocumentState.summaries_completed (distribute_chunks state) = 0%nat.
Proof. done. Qed.

(** C1. On a state whose [large_chunks] is empty, [distribute_chunks] reports
    nothing: it returns the state with status ["mapping"], [total_chunks] 0
    and no error message. *)
Theorem distribute_chunks_empty_enters_mapping :
  DocumentState.large_chunks empty_document_state = []
  ∧ DocumentState.status (distribute_chunks empty_document_state) = "mapping"
  ∧ DocumentState.total_chunks (distribute_chunks empty_document_state) = 0%nat
  ∧ DocumentState.error_message (distribute_chunks empty_document_state) = None.
Proof. done. Qed.

(** C10. [distribute_chunks] leaves [document_id], [document_metadata],
    [large_chunks], [final_summary] and [error_message] as they were. *)
Theorem distribute_chunks_frame (state : DocumentState.t) :
  DocumentState.document_id (distribute_chunks state) = DocumentState.document_id state
  ∧ DocumentState.document_metadata (distribute_chunks state)
    = DocumentState.document_metadata state
  ∧ DocumentState.large_chunks (distribute_chunks state)
    = DocumentState.large_chunks state
  ∧ DocumentState.final_summary (distribute_chunks state)
    = DocumentState.final_summary state
  ∧ DocumentState.error_message (distribute_chunks state)
    = DocumentState.error_message state.
Proof. done. Qed.

(** ** The map stage *)

Section MapStage.

Variable llm : prompt → result string.

Implicit Types (state : DocumentState.t) (order : list nat).

Lemma map_summarize_unfold order state :
  map_summarize llm order state =
  match gather order (map_tasks llm state) with
  | Err e => Raised e state
  | Ok summaries =>
      Returned (DocumentState.set_status "reducing"
                  (DocumentState.set_summaries_completed (length summaries)
                     (DocumentState.set_chunk_summaries summaries state)))
  end.
Proof. done. Qed.

(** C3. When every summarization succeeds, [map_summarize] returns, whatever
    the completion order: [chunk_summaries] has one entry per chunk, the
    entry at index [i] is the summary of the chunk whose [chunk_index] is
    [i], [summaries_completed] is the number of chunks and the status is
    ["reducing"]. *)
Theorem map_summarize_success order state :
  (∀ chunk, chunk ∈ DocumentState.large_chunks state →
     is_Ok (summarize_chunk_async llm chunk (DocumentState.total_chunks state))) →
  (∀ i chunk, DocumentState.large_chunks state !! i = Some chunk →
     SummaryChunk.chunk_index chunk = i) →
  ∃ state',
    map_summarize llm order state = Returned state'
    ∧ length (DocumentState.chunk_summaries state')
      = length (DocumentState.large_chunks state)
    ∧ (∀ chunk, chunk ∈ DocumentState.large_chunks state →
         ∃ summary,
           summarize_chunk_async llm chunk (DocumentState.total_chunks state)
           = Ok summary
           ∧ DocumentState.chunk_summaries state' !! SummaryChunk.chunk_index chunk
             = Some summary)
    ∧ DocumentState.summaries_completed state'
      = length (DocumentState.large_chunks state)
    ∧ DocumentState.status state' = "reducing".
Proof.
  intros Hok Halign.
  destruct (gather_all_Ok order (map_tasks llm state)) as (summaries & Hg & Htasks).
  { unfold map_tasks. apply Forall_fmap, Forall_forall. intros chunk Hin.
    by apply Hok. }
  assert (length summaries = length (DocumentState.large_chunks state)) as Hlen.
  { apply (f_equal length) in Htasks. unfold map_tasks in Htasks.
    by rewrite !length_fmap in Htasks. }
  eexists. rewrite map_summarize_unfold, Hg. split; [done|]. simpl.
  repeat split; try done.
  intros chunk [i Hi]%list_elem_of_lookup.
  rewrite (Halign _ _ Hi).
  assert (map_tasks llm state !! i
          = Some (summarize_chunk_async llm chunk (DocumentState.total_chunks state)))
    as Ht.
  { unfold map_tasks. by rewrite list_lookup_fmap, Hi. }
  rewrite Htasks, list_lookup_fmap in Ht.
  destruct (summaries !! i) as [summary|] eqn:Hs; [|done].
  exists summary. by injection Ht as <-.
Qed.

(** C2, as the code has it. When a summarization fails, [map_summarize]
    raises the exception of a failed invocation instead of returning a
    state, and the state is the one it was called with: nothing was written.
    When that state is the one [summarize_document] has after the distribute
    stage for a document without a summary, its status is ["mapping"], it has
    no [error_message] and no summaries; the run raises the same exception,
    and it is the endpoint that answers 500 with the text of that exception
    and stores the status ["error"] in [documents_db], the stored summary
    being left as it was. *)
Theorem map_summarize_failure order state chunk :
  completion_order order (length (DocumentState.large_chunks state)) →
  chunk ∈ DocumentState.large_chunks state →
  ¬ is_Ok (summarize_chunk_async llm chunk (DocumentState.total_chunks state)) →
  ∃ e failed,
    failed ∈ DocumentState.large_chunks state
    ∧ summarize_chunk_async llm failed (DocumentState.total_chunks state) = Err e
    ∧ map_summarize llm order state = Raised e state
    ∧ ∀ doc_id documents_db doc_data,
        documents_db !! doc_id = Some doc_data →
        ¬ summarized doc_data →
        distribute_chunks (initial_state doc_id doc_data) = state →
        DocumentState.status state = "mapping"
        ∧ DocumentState.error_message state = None
        ∧ DocumentState.chunk_summaries state = []
        ∧ ainvoke llm order (initial_state doc_id doc_data) = Raised e state
        ∧ summarize_document llm order doc_id documents_db
          = (HTTPException 500 ("Error during summarization: " +:+ str_exn e),
             <[doc_id := {| DocData.metadata := DocData.metadata doc_data;
                            DocData.summary_chunks := DocData.summary_chunks doc_data;
                            DocData.status := "error";
                            DocData.summary := DocData.summary doc_data |}]>
               documents_db).
Proof.
  intros Hperm [i Hi]%list_elem_of_lookup Hfail.
  destruct (is_Ok_dec (summarize_chunk_async llm chunk
                         (DocumentState.total_chunks state))) as [?|[e He]]; [done|].
  destruct (gather_raises order (map_tasks llm state) i e) as (j & e' & Hj & Hg).
  { unfold map_tasks. by rewrite length_fmap. }
  { unfold map_tasks. by rewrite list_lookup_fmap, Hi, <- He. }
  unfold map_tasks in Hj. rewrite list_lookup_fmap in Hj.
  destruct (DocumentState.large_chunks state !! j) as [failed|] eqn:Hf; [|done].
  injection Hj as Hj.
  assert (map_summarize llm order state = Raised e' state) as Hmap.
  { by rewrite map_summarize_unfold, Hg. }
  exists e', failed. split; [apply list_elem_of_lookup; by exists j|].
  split; [done|]. split; [done|].
  intros doc_id documents_db doc_data Hdb Hnot Hstate.
  assert (ainvoke llm order (initial_state doc_id doc_data) = Raised e' state) as Hrun.
  { unfold ainvoke. by rewrite Hstate, Hmap. }
  repeat split; try by rewrite <- Hstate.
  - exact Hrun.
  - unfold summarize_document. rewrite Hdb.
    destruct (DocData.summary doc_data) as [[|c s]|] eqn:Hs.
    + fold (initial_state doc_id doc_data). by rewrite Hrun.
    + exfalso. apply Hnot. by exists c, s.
    + fold (initial_state doc_id doc_data). by rewrite Hrun.
Qed.

End MapStage.

Lemma map_summarize_success_witness :
  ∃ state',
    map_summarize llm_echo [1; 0]%nat two_chunk_mapping = Returned state'
    ∧ length (DocumentState.chunk_summaries state') = 2%nat
    ∧ (∀ chunk, chunk ∈ [chunk_a; chunk_b] →
         ∃ summary,
           summarize_chunk_async llm_echo chunk 2 = Ok summary
           ∧ DocumentState.chunk_summaries state' !! SummaryChunk.chunk_index chunk
             = Some summary)
    ∧ DocumentState.summaries_completed state' = 2%nat
    ∧ DocumentState.status state' = "reducing".
Proof.
  apply (map_summarize_success llm_echo [1; 0]%nat two_chunk_mapping).
  - intros chunk Hin. simpl in Hin.
    apply elem_of_cons in Hin as [->|Hin]; [by eexists|].
    apply elem_of_cons in Hin as [->|Hin]; [by eexists|].
    by apply elem_of_nil in Hin.
  - intros [|[|i]] chunk; simpl; intros [= <-]; reflexivity.
Defined.

Lemma map_summarize_failure_witness :
  ∃ e failed,
    failed ∈ [chunk_a; chunk_b]
    ∧ summarize_chunk_async llm_flaky failed 2 = Err e
    ∧ map_summarize llm_flaky [1; 0]%nat two_chunk_mapping = Raised e two_chunk_mapping
    ∧ DocumentState.status two_chunk_mapping = "mapping"
    ∧ DocumentState.error_message two_chunk_mapping = None
    ∧ DocumentState.chunk_summaries two_chunk_mapping = []
    ∧ ainvoke llm_flaky [1; 0]%nat (initial_state "doc" uploaded_doc)
      = Raised e two_chunk_mapping
    ∧ summarize_document llm_flaky [1; 0]%nat "doc" one_document
      = (HTTPException 500 ("Error during summarization: " +:+ str_exn e),
         <["doc" := failed_doc]> one_document).
Proof.
  destruct (map_summarize_failure llm_flaky [1; 0]%nat two_chunk_mapping chunk_b)
    as (e & failed & Hin & Hcall & Hmap & Hendpoint).
  - unfold completion_order. simpl. apply perm_swap.
  - simpl. apply elem_of_cons. right. apply elem_of_cons. by left.
  - intros [summary Hs]. vm_compute in Hs. discriminate.
  - destruct (Hendpoint "doc" one_document uploaded_doc)
      as (Hstatus & Herror & Hsummaries & Hrun & Hresponse).
    + apply lookup_singleton_eq.
    + by intros (c & s & [=]).
    + reflexivity.
    + exists e, failed. repeat split; done.
Defined.

(** C2, as stated, fails: with a model whose second call fails, the map
    stage raises; the state it leaves has status ["mapping"], not ["error"],
    and no [error_message]. *)
Lemma failed_map_leaves_mapping_status :
  map_summarize llm_flaky [0; 1]%nat two_chunk_mapping
  = Raised (Exception "rate limit") two_chunk_mapping
  ∧ DocumentState.status two_chunk_mapping = "mapping"
  ∧ DocumentState.status two_chunk_mapping ≠ "error"
  ∧ DocumentState.error_message two_chunk_mapping = None.
Proof. repeat split; done. Qed.

(** ** Strings *)

Section Strings.

Implicit Types (s t u : string) (n m : nat).

Lemma app_String a s t : String a s +:+ t = String a (s +:+ t).
Proof. reflexivity. Qed.

Lemma app_Empty s : EmptyString +:+ s = s.
Proof. reflexivity. Qed.

Lemma str_length_app s t : String.length (s +:+ t) = (String.length s + String.length t)%nat.
Proof.
  induction s as [|a s IH]; [done|]. rewrite app_String. simpl. by rewrite IH.
Qed.

Lemma len_app s t : Py.len (s +:+ t) = Py.len s + Py.len t.
Proof. unfold Py.len. rewrite str_length_app. lia. Qed.

Lemma len_nonneg s : 0 ≤ Py.len s.
Proof. unfold Py.len. lia. Qed.

Lemma len_sep : Py.len Py.sep = 2.
Proof. reflexivity. Qed.

Lemma app_assoc_str s t u : (s +:+ t) +:+ u = s +:+ (t +:+ u).
Proof.
  induction s as [|a s IH]; [done|]. rewrite !app_String. by rewrite IH.
Qed.

Lemma substring_0_app s t : substring 0 (String.length s) (s +:+ t) = s.
Proof.
  induction s as [|a s IH].
  - rewrite app_Empty. by destruct t.
  - rewrite app_String. simpl. by rewrite IH.
Qed.

Lemma substring_0_all s : substring 0 (String.length s) s = s.
Proof. induction s as [|a s IH]; [done|]. simpl. by rewrite IH. Qed.

(** The text that starts where [s] ends. *)
Lemma substring_app_r s t n :
  substring (String.length s) n (s +:+ t) = substring 0 n t.
Proof.
  induction s as [|a s IH]; [done|]. rewrite app_String. simpl. apply IH.
Qed.

(** A range that lies within [s] is not affected by what is appended. *)
Lemma substring_app_l s t n m :
  (n + m ≤ String.length s)%nat → substring n m (s +:+ t) = substring n m s.
Proof.
  revert n m. induction s as [|a s IH]; intros n m Hle; simpl in Hle.
  - assert (n = 0%nat) as -> by lia. assert (m = 0%nat) as -> by lia.
    rewrite app_Empty. by destruct t.
  - rewrite app_String. destruct n as [|n]; simpl.
    + destruct m as [|m]; [done|]. f_equal. apply IH. lia.
    + apply IH. lia.
Qed.

Lemma index_ge n m s t : index n s t = Some m → (n ≤ m)%nat.
Proof.
  revert n m. induction t as [|b t IH]; intros n m; simpl.
  - destruct n; [|done]. destruct s; [|done]. intros [= <-]. lia.
  - destruct n as [|n]; [lia|].
    destruct (index n s t) as [k|] eqn:Hk; [|done].
    intros [= <-]. apply IH in Hk. lia.
Qed.

End Strings.

(** ** [str.find] *)

Lemma find_ge_minus_one s sub start : -1 ≤ Py.find s sub start.
Proof. unfold Py.find. destruct (index _ _ _); lia. Qed.

Lemma find_found s sub start :
  0 ≤ start → 0 ≤ Py.find s sub start →
  first_occurrence s sub start (Py.find s sub start).
Proof.
  unfold Py.find. intros Hstart. destruct (start <? 0) eqn:Hneg; [lia|]. simpl.
  destruct (index (Z.to_nat start) sub s) as [i|] eqn:Hi; [|lia]. intros _.
  split; [|split].
  - apply index_ge in Hi. lia.
  - rewrite Nat2Z.id. by apply index_correct1 in Hi.
  - intros p Hp. apply (index_correct2 _ _ _ _ Hi); lia.
Qed.

Lemma find_missing s sub start :
  0 ≤ start → sub ≠ EmptyString → Py.find s sub start = -1 →
  ∀ p, start ≤ p → substring (Z.to_nat p) (String.length sub) s ≠ sub.
Proof.
  unfold Py.find. intros Hstart Hsub. destruct (start <? 0) eqn:Hneg; [lia|]. simpl.
  destruct (index (Z.to_nat start) sub s) as [i|] eqn:Hi; [lia|]. intros _ p Hp.
  apply (index_correct3 _ _ _ _ Hi Hsub). lia.
Qed.

(** ** Consolidating the pages *)

Section Consolidate.

Implicit Types (pages : list Page.t) (page : Page.t) (marker : Marker.t).

Lemma consolidate_snoc pages page :
  consolidate (pages ++ [page]) = consolidate_step (consolidate pages) page.
Proof. unfold consolidate, consolidate_from. by rewrite fold_left_app. Qed.

Lemma consolidate_length pages :
  length (consolidate pages).2 = length pages.
Proof.
  induction pages as [|page pages IH] using rev_ind; [done|].
  rewrite consolidate_snoc. destruct (consolidate pages) as [full_text markers].
  simpl in *. rewrite !length_app. simpl. lia.
Qed.

(** The last marker ends where the buffer ends. *)
Lemma consolidate_last_end pages :
  from_option Marker.end_pos 0 (last (consolidate pages).2)
  = Py.len (consolidate pages).1.
Proof.
  destruct pages as [|page pages _] using rev_ind; [done|].
  rewrite consolidate_snoc. destruct (consolidate pages) as [full_text markers].
  simpl. by rewrite last_snoc.
Qed.

(** The marker of a page: it starts where the buffer stood when the page was
    reached, and spans the text of the page and the separator after it. *)
Lemma consolidate_lookup pages i page marker :
  pages !! i = Some page → (consolidate pages).2 !! i = Some marker →
  Marker.page_number marker = Page.page_number page
  ∧ 0 ≤ Marker.start_pos marker
  ∧ Marker.end_pos marker
    = Marker.start_pos marker + Py.len (Page.text page) + Py.len Py.sep
  ∧ Marker.end_pos marker ≤ Py.len (consolidate pages).1
  ∧ substring (Z.to_nat (Marker.start_pos marker))
      (String.length (Page.text page +:+ Py.sep)) (consolidate pages).1
    = Page.text page +:+ Py.sep.
Proof.
  revert i page marker.
  induction pages as [|last_page pages IH] using rev_ind; intros i page marker; [done|].
  pose proof (consolidate_length pages) as Hlen.
  rewrite consolidate_snoc. destruct (consolidate pages) as [full_text markers].
  simpl in *. intros Hp Hm.
  destruct (decide (i < length pages)%nat) as [Hlt|Hge].
  - rewrite lookup_app_l in Hp by done. rewrite lookup_app_l in Hm by lia.
    destruct (IH _ _ _ Hp Hm) as (Hnum & Hstart & Hend & Hbound & Hsub).
    repeat split; try done.
    + rewrite len_app. pose proof (len_nonneg (Page.text last_page +:+ Py.sep)). lia.
    + rewrite substring_app_l; [done|].
      rewrite str_length_app. unfold Py.len in *. simpl in *. lia.
  - apply lookup_lt_Some in Hp as Hi. rewrite length_app in Hi. simpl in Hi.
    assert (i = length pages) as -> by lia.
    rewrite list_lookup_middle in Hp by done.
    rewrite list_lookup_middle in Hm by done.
    injection Hp as <-. injection Hm as <-. simpl.
    repeat split.
    + apply len_nonneg.
    + rewrite !len_app. lia.
    + lia.
    + unfold Py.len. rewrite Nat2Z.id, substring_app_r. apply substring_0_all.
Qed.

(** Consecutive markers touch. *)
Lemma consolidate_contiguous pages i marker next :
  (consolidate pages).2 !! i = Some marker →
  (consolidate pages).2 !! S i = Some next →
  Marker.end_pos marker = Marker.start_pos next.
Proof.
  revert i marker next.
  induction pages as [|last_page pages IH] using rev_ind; intros i marker next; [done|].
  pose proof (consolidate_length pages) as Hlen.
  pose proof (consolidate_last_end pages) as Hlast.
  rewrite consolidate_snoc. destruct (consolidate pages) as [full_text markers].
  simpl in *. intros Hm Hn.
  apply lookup_lt_Some in Hn as Hi. rewrite length_app in Hi. simpl in Hi.
  destruct (decide (S i < length markers)%nat) as [Hlt|Hge].
  - rewrite lookup_app_l in Hm by lia. rewrite lookup_app_l in Hn by lia. eauto.
  - assert (S i = length markers) as Heq by lia.
    rewrite Heq, list_lookup_middle in Hn by done. injection Hn as <-. simpl.
    rewrite lookup_app_l in Hm by lia.
    rewrite last_lookup, <- Heq in Hlast. simpl in Hlast. by rewrite Hm in Hlast.
Qed.

Lemma consolidate_page_numbers pages :
  Marker.page_number <$> (consolidate pages).2 = Page.page_number <$> pages.
Proof.
  induction pages as [|page pages IH] using rev_ind; [done|].
  rewrite consolidate_snoc. destruct (consolidate pages) as [full_text markers].
  simpl in *. by rewrite !fmap_app, IH.
Qed.

(** The first marker starts at offset 0. *)
Lemma consolidate_first_start pages marker :
  head (consolidate pages).2 = Some marker → Marker.start_pos marker = 0.
Proof.
  induction pages as [|page pages IH] using rev_ind; [done|].
  rewrite consolidate_snoc.
  destruct pages as [|first pages _] using rev_ind.
  - simpl. by intros [= <-].
  - destruct (consolidate (pages ++ [first])) as [full_text markers] eqn:Hc.
    simpl in *. pose proof (consolidate_length (pages ++ [first])) as Hlen.
    rewrite Hc, length_app in Hlen. simpl in Hlen.
    destruct markers as [|m markers]; [simpl in Hlen; lia|]. simpl. apply IH.
Qed.

(** Every marker is a non-empty range of the buffer. *)
Lemma consolidate_marker_range pages i marker :
  (consolidate pages).2 !! i = Some marker →
  0 ≤ Marker.start_pos marker
  ∧ Marker.start_pos marker < Marker.end_pos marker
  ∧ Marker.end_pos marker ≤ Py.len (consolidate pages).1.
Proof.
  intros Hm. destruct (pages !! i) as [page|] eqn:Hp.
  - destruct (consolidate_lookup _ _ _ _ Hp Hm) as (_ & Hstart & Hend & Hbound & _).
    rewrite len_sep in Hend. pose proof (len_nonneg (Page.text page)). lia.
  - apply lookup_ge_None in Hp. apply lookup_lt_Some in Hm.
    rewrite consolidate_length in Hm. lia.
Qed.

(** A marker ends before every later marker starts. *)
Lemma consolidate_ordered pages j k earlier later :
  (j < k)%nat →
  (consolidate pages).2 !! j = Some earlier →
  (consolidate pages).2 !! k = Some later →
  Marker.end_pos earlier ≤ Marker.start_pos later.
Proof.
  intros Hjk Hj. revert later. induction k as [|k IH]; intros later Hk; [lia|].
  destruct (lookup_lt_is_Some_2 (consolidate pages).2 k) as [middle Hmid].
  { apply lookup_lt_Some in Hk. lia. }
  pose proof (consolidate_contiguous _ _ _ _ Hmid Hk) as Htouch.
  destruct (decide (j = k)) as [->|Hne].
  - rewrite Hj in Hmid. injection Hmid as ->. lia.
  - pose proof (IH ltac:(lia) _ Hmid).
    destruct (consolidate_marker_range _ _ _ Hmid) as (_ & ? & _). lia.
Qed.

(** Every offset of the buffer lies in the range of a marker. *)
Lemma consolidate_covers pages x :
  0 ≤ x < Py.len (consolidate pages).1 →
  ∃ i marker,
    (consolidate pages).2 !! i = Some marker
    ∧ Marker.start_pos marker ≤ x < Marker.end_pos marker.
Proof.
  induction pages as [|page pages IH] using rev_ind.
  { simpl. unfold Py.len. simpl. lia. }
  pose proof (consolidate_length pages) as Hlen.
  rewrite consolidate_snoc. destruct (consolidate pages) as [full_text markers].
  simpl in *. intros Hx.
  destruct (decide (x < Py.len full_text)) as [Hlt|Hge].
  - destruct (IH ltac:(lia)) as (i & marker & Hi & Hrange).
    exists i, marker. split; [|done]. apply lookup_app_l_Some. done.
  - eexists (length markers), _. split; [by apply list_lookup_middle|]. simpl. lia.
Qed.

End Consolidate.

(** C5, as stated, fails: the markers keep the order in which the pages are
    handed over, whatever their page numbers. For page 2 followed by page 1
    the markers carry the page numbers 2, 1 and are not in page order. *)
Lemma unordered_pages_give_unordered_markers :
  pages_out_of_order ≠ []
  ∧ (consolidate pages_out_of_order).2
    = [ {| Marker.page_number := 2; Marker.start_pos := 0; Marker.end_pos := 4 |};
        {| Marker.page_number := 1; Marker.start_pos := 4; Marker.end_pos := 9 |} ]
  ∧ ¬ StronglySorted Z.le
        (Marker.page_number <$> (consolidate pages_out_of_order).2).
Proof.
  split; [discriminate|]. split; [reflexivity|].
  intros Hsorted. apply StronglySorted_inv in Hsorted as [_ Hall].
  apply Forall_inv in Hall. simpl in Hall. lia.
Qed.

(** C5, as the code has it. For a non-empty sequence of pages there is one
    marker per page, in the order of the pages: the marker at the position
    of a page carries its page number and is the range at which the buffer
    holds the text of the page and the separator. So the markers are in
    page order exactly when the pages are handed over in page order.
    Whatever the order of the pages, each marker ends where the next one
    starts, the first starts at offset 0, the last ends at the end of the
    buffer, no marker is empty, and every offset of the buffer lies in the
    range of exactly one marker. *)
Theorem page_markers_contiguous_cover (pages : list Page.t) :
  pages ≠ [] →
  length (consolidate pages).2 = length pages
  ∧ (∀ i page, pages !! i = Some page →
       ∃ marker,
         (consolidate pages).2 !! i = Some marker
         ∧ Marker.page_number marker = Page.page_number page
         ∧ Marker.end_pos marker
           = Marker.start_pos marker + Py.len (Page.text page) + Py.len Py.sep
         ∧ substring (Z.to_nat (Marker.start_pos marker))
             (String.length (Page.text page +:+ Py.sep)) (consolidate pages).1
           = Page.text page +:+ Py.sep)
  ∧ (StronglySorted Z.lt (Page.page_number <$> pages)
     ↔ StronglySorted Z.lt (Marker.page_number <$> (consolidate pages).2))
  ∧ (∀ i marker next,
       (consolidate pages).2 !! i = Some marker →
       (consolidate pages).2 !! S i = Some next →
       Marker.end_pos marker = Marker.start_pos next)
  ∧ (∃ first, head (consolidate pages).2 = Some first ∧ Marker.start_pos first = 0)
  ∧ (∃ final, last (consolidate pages).2 = Some final
              ∧ Marker.end_pos final = Py.len (consolidate pages).1)
  ∧ (∀ marker, marker ∈ (consolidate pages).2 →
       Marker.start_pos marker < Marker.end_pos marker)
  ∧ (∀ x, 0 ≤ x < Py.len (consolidate pages).1 →
       ∃ i marker,
         (consolidate pages).2 !! i = Some marker
         ∧ Marker.start_pos marker ≤ x < Marker.end_pos marker
         ∧ ∀ j other,
             (consolidate pages).2 !! j = Some other →
             Marker.start_pos other ≤ x < Marker.end_pos other →
             j = i).
Proof.
  intros Hne.
  pose proof (consolidate_length pages) as Hlen.
  assert (0 < length (consolidate pages).2)%nat as Hpos.
  { rewrite Hlen. destruct pages; [done | simpl; lia]. }
  split; [done|].
  split.
  { intros i page Hp.
    destruct (lookup_lt_is_Some_2 (consolidate pages).2 i) as [marker Hm].
    { rewrite Hlen. by apply lookup_lt_Some in Hp. }
    destruct (consolidate_lookup _ _ _ _ Hp Hm) as (Hnum & _ & Hend & _ & Hsub).
    by exists marker. }
  split; [by rewrite consolidate_page_numbers|].
  split; [exact (consolidate_contiguous pages)|].
  split; [|split; [|split]].
  - destruct (head (consolidate pages).2) as [first|] eqn:Hhead.
    + exists first. split; [done|]. by apply (consolidate_first_start pages).
    + apply head_None in Hhead. rewrite Hhead in Hpos. simpl in Hpos. lia.
  - pose proof (consolidate_last_end pages) as Hend.
    destruct (last (consolidate pages).2) as [final|] eqn:Hlast.
    + exists final. by split.
    + apply last_None in Hlast. rewrite Hlast in Hpos. simpl in Hpos. lia.
  - intros marker [i Hi]%list_elem_of_lookup.
    by destruct (consolidate_marker_range _ _ _ Hi) as (_ & ? & _).
  - intros x Hx.
    destruct (consolidate_covers pages x Hx) as (i & marker & Hi & Hrange).
    exists i, marker. split; [done|]. split; [done|].
    intros j other Hj Hother.
    destruct (Nat.lt_trichotomy j i) as [Hlt|[->|Hgt]]; [|done|].
    + pose proof (consolidate_ordered pages j i other marker Hlt Hj Hi). lia.
    + pose proof (consolidate_ordered pages i j marker other Hgt Hi Hj). lia.
Qed.

Lemma page_markers_contiguous_cover_witness :
  length (consolidate three_pages).2 = 3%nat
  ∧ (∀ i page, three_pages !! i = Some page →
       ∃ marker,
         (consolidate three_pages).2 !! i = Some marker
         ∧ Marker.page_number marker = Page.page_number page
         ∧ Marker.end_pos marker
           = Marker.start_pos marker + Py.len (Page.text page) + Py.len Py.sep
         ∧ substring (Z.to_nat (Marker.start_pos marker))
             (String.length (Page.text page +:+ Py.sep)) (consolidate three_pages).1
           = Page.text page +:+ Py.sep)
  ∧ (StronglySorted Z.lt (Page.page_number <$> three_pages)
     ↔ StronglySorted Z.lt (Marker.page_number <$> (consolidate three_pages).2))
  ∧ (∀ i marker next,
       (consolidate three_pages).2 !! i = Some marker →
       (consolidate three_pages).2 !! S i = Some next →
       Marker.end_pos marker = Marker.start_pos next)
  ∧ (∃ first, head (consolidate three_pages).2 = Some first
              ∧ Marker.start_pos first = 0)
  ∧ (∃ final, last (consolidate three_pages).2 = Some final
              ∧ Marker.end_pos final = Py.len (consolidate three_pages).1)
  ∧ (∀ marker, marker ∈ (consolidate three_pages).2 →
       Marker.start_pos marker < Marker.end_pos marker)
  ∧ (∀ x, 0 ≤ x < Py.len (consolidate three_pages).1 →
       ∃ i marker,
         (consolidate three_pages).2 !! i = Some marker
         ∧ Marker.start_pos marker ≤ x < Marker.end_pos marker
         ∧ ∀ j other,
             (consolidate three_pages).2 !! j = Some other →
             Marker.start_pos other ≤ x < Marker.end_pos other →
             j = i).
Proof. apply (page_markers_contiguous_cover three_pages). discriminate. Defined.

(** C6, as stated, fails: the marker of a page of three characters that
    starts at offset 0 ends at offset 5, the separator being counted. *)
Lemma marker_range_counts_separator :
  (consolidate single_page).2
  = [ {| Marker.page_number := 1; Marker.start_pos := 0; Marker.end_pos := 5 |} ]
  ∧ ¬ (∀ i page marker,
         single_page !! i = Some page →
         (consolidate single_page).2 !! i = Some marker →
         Marker.end_pos marker
         = Marker.start_pos marker + Py.len (Page.text page)).
Proof.
  split; [reflexivity|]. intros Hclaim.
  specialize (Hclaim 0%nat (page_of 1 "abc") (Marker.mk 1 0 5) eq_refl eq_refl).
  vm_compute in Hclaim. discriminate.
Qed.

(** C6, as the code has it. The marker of a page starts at the offset the
    buffer had when the page was reached and ends after the separator that
    follows the text of the page: its end offset is its start offset plus
    the length of the text plus two, and the buffer holds the text and then
    the separator at that range. *)
Theorem marker_range_is_text_and_separator
    (pages : list Page.t) (i : nat) (page : Page.t) (marker : Marker.t) :
  pages !! i = Some page →
  (consolidate pages).2 !! i = Some marker →
  Marker.page_number marker = Page.page_number page
  ∧ Marker.end_pos marker = Marker.start_pos marker + Py.len (Page.text page) + 2
  ∧ substring (Z.to_nat (Marker.start_pos marker))
      (String.length (Page.text page) + 2) (consolidate pages).1
    = Page.text page +:+ Py.sep.
Proof.
  intros Hp Hm.
  destruct (consolidate_lookup _ _ _ _ Hp Hm) as (Hnum & _ & Hend & _ & Hsub).
  rewrite str_length_app in Hsub. by rewrite len_sep in Hend.
Qed.

Lemma marker_range_is_text_and_separator_witness :
  Marker.page_number (Marker.mk 2 5 9) = Page.page_number (page_of 2 "de")
  ∧ Marker.end_pos (Marker.mk 2 5 9)
    = Marker.start_pos (Marker.mk 2 5 9) + Py.len (Page.text (page_of 2 "de")) + 2
  ∧ substring (Z.to_nat (Marker.start_pos (Marker.mk 2 5 9)))
      (String.length (Page.text (page_of 2 "de")) + 2) (consolidate three_pages).1
    = Page.text (page_of 2 "de") +:+ Py.sep.
Proof.
  apply (marker_range_is_text_and_separator three_pages 1); reflexivity.
Defined.

Lemma find_located s sub start :
  0 ≤ start → located s sub start (Py.find s sub start).
Proof.
  intros Hstart. split; [apply find_ge_minus_one|]. split.
  - by apply find_found.
  - intros Hpos Hsub p Hp. by apply (find_missing s sub start).
Qed.

(** ** Minimum and maximum of the page numbers *)

Lemma min_list_spec (x : Z) (l : list Z) :
  Py.min_list x l ∈ x :: l ∧ ∀ y, y ∈ x :: l → Py.min_list x l ≤ y.
Proof.
  unfold Py.min_list. revert x. induction l as [|z l IH]; intros x; simpl.
  - split; [by left|]. intros y ->%list_elem_of_singleton. lia.
  - destruct (IH (Z.min x z)) as [Hin Hle]. split.
    + apply elem_of_cons in Hin as [Heq|Hin]; [|by do 2 right].
      rewrite Heq. destruct (Z.min_spec x z) as [[_ ->]|[_ ->]];
        [by left | right; by left].
    + intros y Hy. apply elem_of_cons in Hy as [->|Hy].
      * specialize (Hle (Z.min x z) ltac:(by left)). lia.
      * apply elem_of_cons in Hy as [->|Hy].
        -- specialize (Hle (Z.min x z) ltac:(by left)). lia.
        -- apply Hle. by right.
Qed.

Lemma max_list_spec (x : Z) (l : list Z) :
  Py.max_list x l ∈ x :: l ∧ ∀ y, y ∈ x :: l → y ≤ Py.max_list x l.
Proof.
  unfold Py.max_list. revert x. induction l as [|z l IH]; intros x; simpl.
  - split; [by left|]. intros y ->%list_elem_of_singleton. lia.
  - destruct (IH (Z.max x z)) as [Hin Hle]. split.
    + apply elem_of_cons in Hin as [Heq|Hin]; [|by do 2 right].
      rewrite Heq. destruct (Z.max_spec x z) as [[_ ->]|[_ ->]];
        [right; by left | by left].
    + intros y Hy. apply elem_of_cons in Hy as [->|Hy].
      * specialize (Hle (Z.max x z) ltac:(by left)). lia.
      * apply elem_of_cons in Hy as [->|Hy].
        -- specialize (Hle (Z.max x z) ltac:(by left)). lia.
        -- apply Hle. by right.
Qed.

(** ** The attribution loops *)

Section Loops.

Context {Encoding : Type}.
Variable encoding_for_model : string → result Encoding.
Variable encode : Encoding → string → result (list nat).

Local Abbreviation count := (count_tokens_default encoding_for_model encode).
Local Abbreviation rag_step' := (rag_step encoding_for_model encode).
Local Abbreviation rag_loop' := (rag_loop encoding_for_model encode).
Local Abbreviation summary_step' := (summary_step encoding_for_model encode).
Local Abbreviation summary_loop' := (summary_loop encoding_for_model encode).

Implicit Types (full_text : string) (page_markers : list Marker.t)
  (document_id : option string) (idx : nat) (cur : Z) (segments : list string).

(** A step succeeds exactly when the tokens of the segment can be counted,
    and then appends one chunk and moves the cursor one past [chunk_start]. *)
Lemma rag_step_Ok full_text page_markers document_id chunks cur idx t n :
  count t = Ok n →
  ∃ c, rag_step' full_text page_markers document_id (chunks, cur) idx t
       = Ok (chunks ++ [c], Py.find full_text t cur + 1)
     ∧ RagChunk.chunk_index c = idx
     ∧ RagChunk.text c = t
     ∧ RagChunk.page_numbers c
       = overlapping page_markers (Py.find full_text t cur)
           (Py.find full_text t cur + Py.len t).
Proof. intros Hn. unfold rag_step. rewrite Hn. simpl. by eexists. Qed.

Lemma summary_step_Ok full_text page_markers document_id chunks cur idx t n :
  count t = Ok n →
  ∃ c, summary_step' full_text page_markers document_id (chunks, cur) idx t
       = Ok (chunks ++ [c], Py.find full_text t cur + 1)
     ∧ SummaryChunk.chunk_index c = idx
     ∧ SummaryChunk.text c = t
     ∧ SummaryChunk.page_numbers c
       = overlapping page_markers (Py.find full_text t cur)
           (Py.find full_text t cur + Py.len t)
     ∧ SummaryChunk.page_range c = Some (page_range_of (SummaryChunk.page_numbers c)).
Proof. intros Hn. unfold summary_step. rewrite Hn. simpl. by eexists. Qed.

Lemma rag_step_Err full_text page_markers document_id st idx t e :
  count t = Err e → rag_step' full_text page_markers document_id st idx t = Err e.
Proof. intros He. destruct st. unfold rag_step. by rewrite He. Qed.

Lemma summary_step_Err full_text page_markers document_id st idx t e :
  count t = Err e → summary_step' full_text page_markers document_id st idx t = Err e.
Proof. intros He. destruct st. unfold summary_step. by rewrite He. Qed.

Lemma rag_loop_cons full_text page_markers document_id st idx t rest :
  rag_loop' full_text page_markers document_id st idx (t :: rest)
  = rag_step' full_text page_markers document_id st idx t
    ≫= λ st', rag_loop' full_text page_markers document_id st' (S idx) rest.
Proof. reflexivity. Qed.

Lemma summary_loop_cons full_text page_markers document_id st idx t rest :
  summary_loop' full_text page_markers document_id st idx (t :: rest)
  = summary_step' full_text page_markers document_id st idx t
    ≫= λ st', summary_loop' full_text page_markers document_id st' (S idx) rest.
Proof. reflexivity. Qed.

Lemma rag_loop_app full_text page_markers document_id st idx l1 l2 :
  rag_loop' full_text page_markers document_id st idx (l1 ++ l2)
  = rag_loop' full_text page_markers document_id st idx l1
    ≫= λ st', rag_loop' full_text page_markers document_id st' (idx + length l1) l2.
Proof.
  revert st idx. induction l1 as [|t l1 IH]; intros st idx.
  - simpl. by rewrite Nat.add_0_r.
  - rewrite <- app_comm_cons, !rag_loop_cons.
    destruct (rag_step' _ _ _ st idx t) as [st'|e]; simpl; [|done].
    rewrite IH. by replace (S idx + length l1)%nat with (idx + S (length l1))%nat by lia.
Qed.

Lemma summary_loop_app full_text page_markers document_id st idx l1 l2 :
  summary_loop' full_text page_markers document_id st idx (l1 ++ l2)
  = summary_loop' full_text page_markers document_id st idx l1
    ≫= λ st', summary_loop' full_text page_markers document_id st' (idx + length l1) l2.
Proof.
  revert st idx. induction l1 as [|t l1 IH]; intros st idx.
  - simpl. by rewrite Nat.add_0_r.
  - rewrite <- app_comm_cons, !summary_loop_cons.
    destruct (summary_step' _ _ _ st idx t) as [st'|e]; simpl; [|done].
    rewrite IH. by replace (S idx + length l1)%nat with (idx + S (length l1))%nat by lia.
Qed.

(** When the tokens of every segment can be counted, the loops run to the
    end, and the cursor never goes below 0. *)
Lemma rag_loop_total full_text page_markers document_id chunks cur idx segments :
  Forall (λ t, is_Ok (count t)) segments → 0 ≤ cur →
  ∃ chunks' cur',
    rag_loop' full_text page_markers document_id (chunks, cur) idx segments
    = Ok (chunks', cur') ∧ 0 ≤ cur'.
Proof.
  intros Hall. revert chunks cur idx.
  induction Hall as [|t segments [n Hn] _ IH]; intros chunks cur idx Hcur.
  - by exists chunks, cur.
  - rewrite rag_loop_cons.
    destruct (rag_step_Ok full_text page_markers document_id chunks cur idx t n Hn)
      as (c & -> & _). simpl. apply IH.
    pose proof (find_ge_minus_one full_text t cur). lia.
Qed.

Lemma summary_loop_total full_text page_markers document_id chunks cur idx segments :
  Forall (λ t, is_Ok (count t)) segments → 0 ≤ cur →
  ∃ chunks' cur',
    summary_loop' full_text page_markers document_id (chunks, cur) idx segments
    = Ok (chunks', cur') ∧ 0 ≤ cur'.
Proof.
  intros Hall. revert chunks cur idx.
  induction Hall as [|t segments [n Hn] _ IH]; intros chunks cur idx Hcur.
  - by exists chunks, cur.
  - rewrite summary_loop_cons.
    destruct (summary_step_Ok full_text page_markers document_id chunks cur idx t n Hn)
      as (c & -> & _). simpl. apply IH.
    pose proof (find_ge_minus_one full_text t cur). lia.
Qed.

(** C4. While the segments are attributed in order, each segment is looked
    up from the current cursor: its [chunk_start] is the first occurrence of
    its text at or after the cursor ([-1] when there is none), and the
    cursor for the next segment is [chunk_start + 1], not [chunk_end]; in
    [create_rag_chunks] and in [create_summary_chunks] alike. *)
Theorem attribution_cursor_advances
    full_text page_markers document_id segments pre t post :
  Forall (λ s, is_Ok (count s)) segments →
  segments = pre ++ t :: post →
  (∃ chunks cur c,
     rag_loop' full_text page_markers document_id ([], 0) 0 pre = Ok (chunks, cur)
     ∧ rag_loop' full_text page_markers document_id ([], 0) 0 (pre ++ [t])
       = Ok (chunks ++ [c], Py.find full_text t cur + 1)
     ∧ RagChunk.text c = t
     ∧ RagChunk.page_numbers c
       = overlapping page_markers (Py.find full_text t cur)
           (Py.find full_text t cur + Py.len t)
     ∧ located full_text t cur (Py.find full_text t cur))
  ∧ (∃ chunks cur c,
       summary_loop' full_text page_markers document_id ([], 0) 0 pre = Ok (chunks, cur)
       ∧ summary_loop' full_text page_markers document_id ([], 0) 0 (pre ++ [t])
         = Ok (chunks ++ [c], Py.find full_text t cur + 1)
       ∧ SummaryChunk.text c = t
       ∧ SummaryChunk.page_numbers c
         = overlapping page_markers (Py.find full_text t cur)
             (Py.find full_text t cur + Py.len t)
       ∧ located full_text t cur (Py.find full_text t cur)).
Proof.
  intros Hall ->.
  apply Forall_app in Hall as [Hpre Ht]. apply Forall_cons in Ht as [[n Hn] _].
  split.
  - destruct (rag_loop_total full_text page_markers document_id [] 0 0%nat pre Hpre)
      as (chunks & cur & Hrun & Hcur); [lia|].
    destruct (rag_step_Ok full_text page_markers document_id chunks cur
                (0 + length pre) t n Hn) as (c & Hstep & _ & Htext & Hpages).
    exists chunks, cur, c. split; [done|].
    split; [|split; [done|split; [done|]]].
    + by rewrite rag_loop_app, Hrun, bind_Ok, rag_loop_cons, Hstep.
    + by apply find_located.
  - destruct (summary_loop_total full_text page_markers document_id [] 0 0%nat pre Hpre)
      as (chunks & cur & Hrun & Hcur); [lia|].
    destruct (summary_step_Ok full_text page_markers document_id chunks cur
                (0 + length pre) t n Hn) as (c & Hstep & _ & Htext & Hpages & _).
    exists chunks, cur, c. split; [done|].
    split; [|split; [done|split; [done|]]].
    + by rewrite summary_loop_app, Hrun, bind_Ok, summary_loop_cons, Hstep.
    + by apply find_located.
Qed.

(** The first segment whose tokens cannot be counted stops both loops with
    the exception of the count. *)
Lemma loops_raise full_text page_markers document_id segments t :
  t ∈ segments → ¬ is_Ok (count t) →
  ∃ e failed,
    failed ∈ segments ∧ count failed = Err e
    ∧ (∀ st idx, rag_loop' full_text page_markers document_id st idx segments = Err e)
    ∧ (∀ st idx,
         summary_loop' full_text page_markers document_id st idx segments = Err e).
Proof.
  intros Hin Hfail. induction segments as [|s segments IH].
  { by apply elem_of_nil in Hin. }
  destruct (is_Ok_dec (count s)) as [[n Hn]|[e He]].
  - assert (t ∈ segments) as Hin'.
    { apply elem_of_cons in Hin as [->|?]; [|done]. exfalso. apply Hfail. by exists n. }
    destruct (IH Hin') as (e & failed & Hf & He & Hrag & Hsum).
    exists e, failed. split; [by right|]. split; [done|]. split.
    + intros [chunks cur] idx. rewrite rag_loop_cons.
      destruct (rag_step_Ok full_text page_markers document_id chunks cur idx s n Hn)
        as (c & -> & _). simpl. apply Hrag.
    + intros [chunks cur] idx. rewrite summary_loop_cons.
      destruct (summary_step_Ok full_text page_markers document_id chunks cur idx s n Hn)
        as (c & -> & _). simpl. apply Hsum.
  - exists e, s. split; [by left|]. split; [done|]. split.
    + intros st idx. rewrite rag_loop_cons. by rewrite (rag_step_Err _ _ _ _ _ _ _ He).
    + intros st idx. rewrite summary_loop_cons.
      by rewrite (summary_step_Err _ _ _ _ _ _ _ He).
Qed.

(** What [summary_loop] appends: one chunk per segment, numbered from [idx],
    each with the page range of its own page numbers. *)
Lemma summary_loop_chunks
    full_text page_markers document_id chunks cur idx segments chunks' cur' :
  summary_loop' full_text page_markers document_id (chunks, cur) idx segments
  = Ok (chunks', cur') →
  ∃ new,
    chunks' = chunks ++ new
    ∧ length new = length segments
    ∧ ∀ j c, new !! j = Some c →
        SummaryChunk.chunk_index c = (idx + j)%nat
        ∧ segments !! j = Some (SummaryChunk.text c)
        ∧ SummaryChunk.page_range c
          = Some (page_range_of (SummaryChunk.page_numbers c)).
Proof.
  revert chunks cur idx. induction segments as [|t segments IH]; intros chunks cur idx.
  - simpl. intros [= <- <-]. exists []. by rewrite app_nil_r.
  - rewrite summary_loop_cons. intros Hrun.
    destruct (is_Ok_dec (count t)) as [[n Hn]|[e He]].
    + destruct (summary_step_Ok full_text page_markers document_id chunks cur idx t n Hn)
        as (c & Hstep & Hidx & Htext & _ & Hrange).
      rewrite Hstep in Hrun. simpl in Hrun.
      destruct (IH _ _ _ Hrun) as (new & -> & Hlen & Hnew).
      exists (c :: new). split; [by rewrite <- app_assoc|]. split; [simpl; lia|].
      intros [|j] c'; simpl.
      * intros [= <-]. rewrite Nat.add_0_r, Htext. done.
      * intros Hj. destruct (Hnew _ _ Hj) as (Hi & Hs & Hr).
        split; [lia | done].
    + rewrite (summary_step_Err _ _ _ _ _ _ _ He) in Hrun. discriminate.
Qed.

End Loops.

(** ** The two chunkers *)

Section Chunkers.

Context {Encoding : Type}.
Variable encoding_for_model : string → result Encoding.
Variable encode : Encoding → string → result (list nat).
Variable split_text : Z → Z → string → result (list string).

Local Abbreviation count := (count_tokens_default encoding_for_model encode).
Local Abbreviation create_rag_chunks' :=
  (create_rag_chunks encoding_for_model encode split_text).
Local Abbreviation create_summary_chunks' :=
  (create_summary_chunks encoding_for_model encode split_text).

Implicit Types (pages : list Page.t) (document_id : option string).

Lemma create_rag_chunks_unfold pages chunk_size chunk_overlap document_id :
  create_rag_chunks' pages chunk_size chunk_overlap document_id
  = split_text chunk_size chunk_overlap (consolidate pages).1
    ≫= λ chunks,
      rag_loop encoding_for_model encode (consolidate pages).1 (consolidate pages).2
        document_id ([], 0) 0 chunks
      ≫= λ st, Ok st.1.
Proof. unfold create_rag_chunks. by destruct (consolidate pages). Qed.

Lemma create_summary_chunks_unfold pages chunk_size chunk_overlap document_id :
  create_summary_chunks' pages chunk_size chunk_overlap document_id
  = split_text chunk_size chunk_overlap (consolidate pages).1
    ≫= λ chunks,
      summary_loop encoding_for_model encode (consolidate pages).1 (consolidate pages).2
        document_id ([], 0) 0 chunks
      ≫= λ st, Ok st.1.
Proof. unfold create_summary_chunks. by destruct (consolidate pages). Qed.

(** What [create_summary_chunks] returns: one chunk per segment of the
    splitter, in order. *)
Lemma create_summary_chunks_inv pages chunk_size chunk_overlap document_id chunks :
  create_summary_chunks' pages chunk_size chunk_overlap document_id = Ok chunks →
  ∃ segments,
    split_text chunk_size chunk_overlap (consolidate pages).1 = Ok segments
    ∧ length chunks = length segments
    ∧ ∀ j c, chunks !! j = Some c →
        SummaryChunk.chunk_index c = j
        ∧ segments !! j = Some (SummaryChunk.text c)
        ∧ SummaryChunk.page_range c
          = Some (page_range_of (SummaryChunk.page_numbers c)).
Proof.
  rewrite create_summary_chunks_unfold.
  intros (segments & Hsplit & ([chunks' cur'] & Hrun & [= <-])%bind_Ok_inv)%bind_Ok_inv.
  exists segments. split; [done|].
  apply summary_loop_chunks in Hrun as (new & -> & Hlen & Hnew).
  simpl. split; [done|]. apply Hnew.
Qed.

(** The chunks of [create_summary_chunks] are numbered by their position, as
    the map stage expects them. *)
Lemma create_summary_chunks_aligned
    pages chunk_size chunk_overlap document_id chunks j c :
  create_summary_chunks' pages chunk_size chunk_overlap document_id = Ok chunks →
  chunks !! j = Some c → SummaryChunk.chunk_index c = j.
Proof.
  intros (segments & _ & _ & Hc)%create_summary_chunks_inv Hj.
  by destruct (Hc _ _ Hj).
Qed.

(** C8, as the code has it. The [page_range] of a summary chunk is
    ["Unknown"] when its [page_numbers] is empty, and otherwise the least and
    the greatest of its page numbers, printed in decimal with a hyphen
    between them. *)
Theorem summary_page_range pages chunk_size chunk_overlap document_id chunks c :
  create_summary_chunks' pages chunk_size chunk_overlap document_id = Ok chunks →
  c ∈ chunks →
  (SummaryChunk.page_numbers c = [] ∧ SummaryChunk.page_range c = Some "Unknown")
  ∨ (∃ lo hi,
       lo ∈ SummaryChunk.page_numbers c
       ∧ hi ∈ SummaryChunk.page_numbers c
       ∧ (∀ p, p ∈ SummaryChunk.page_numbers c → lo ≤ p ≤ hi)
       ∧ SummaryChunk.page_range c
         = Some (Py.str_int lo +:+ "-" +:+ Py.str_int hi)).
Proof.
  intros (segments & _ & _ & Hc)%create_summary_chunks_inv [j Hj]%list_elem_of_lookup.
  destruct (Hc _ _ Hj) as (_ & _ & Hrange).
  destruct (SummaryChunk.page_numbers c) as [|p ps] eqn:Hpages; [by left|].
  right. destruct (min_list_spec p ps) as [Hmin_in Hmin].
  destruct (max_list_spec p ps) as [Hmax_in Hmax].
  exists (Py.min_list p ps), (Py.max_list p ps).
  repeat split; try done; [by apply Hmin | by apply Hmax].
Qed.

(** C9, as the code has it. When the tokens of a segment cannot be counted,
    the exception of the count leaves [create_rag_chunks] and
    [create_summary_chunks]: neither returns chunks. *)
Theorem token_count_failure_propagates
    pages chunk_size chunk_overlap document_id segments t :
  split_text chunk_size chunk_overlap (consolidate pages).1 = Ok segments →
  t ∈ segments →
  ¬ is_Ok (count t) →
  ∃ e failed,
    failed ∈ segments
    ∧ count failed = Err e
    ∧ create_rag_chunks' pages chunk_size chunk_overlap document_id = Err e
    ∧ create_summary_chunks' pages chunk_size chunk_overlap document_id = Err e.
Proof.
  intros Hsplit Hin Hfail.
  destruct (loops_raise encoding_for_model encode (consolidate pages).1
              (consolidate pages).2 document_id segments t Hin Hfail)
    as (e & failed & Hf & He & Hrag & Hsum).
  exists e, failed. split; [done|]. split; [done|].
  rewrite create_rag_chunks_unfold, create_summary_chunks_unfold, Hsplit, !bind_Ok.
  by rewrite Hrag, Hsum.
Qed.

End Chunkers.

Lemma attribution_cursor_advances_witness :
  (∃ chunks cur c,
     rag_loop encoding_ok encode_chars (consolidate three_pages).1
       (consolidate three_pages).2 None ([], 0) 0 ["abc"] = Ok (chunks, cur)
     ∧ rag_loop encoding_ok encode_chars (consolidate three_pages).1
         (consolidate three_pages).2 None ([], 0) 0 (["abc"] ++ ["de"])
       = Ok (chunks ++ [c], Py.find (consolidate three_pages).1 "de" cur + 1)
     ∧ RagChunk.text c = "de"
     ∧ RagChunk.page_numbers c
       = overlapping (consolidate three_pages).2
           (Py.find (consolidate three_pages).1 "de" cur)
           (Py.find (consolidate three_pages).1 "de" cur + Py.len "de")
     ∧ located (consolidate three_pages).1 "de" cur
         (Py.find (consolidate three_pages).1 "de" cur))
  ∧ (∃ chunks cur c,
       summary_loop encoding_ok encode_chars (consolidate three_pages).1
         (consolidate three_pages).2 None ([], 0) 0 ["abc"] = Ok (chunks, cur)
       ∧ summary_loop encoding_ok encode_chars (consolidate three_pages).1
           (consolidate three_pages).2 None ([], 0) 0 (["abc"] ++ ["de"])
         = Ok (chunks ++ [c], Py.find (consolidate three_pages).1 "de" cur + 1)
       ∧ SummaryChunk.text c = "de"
       ∧ SummaryChunk.page_numbers c
         = overlapping (consolidate three_pages).2
             (Py.find (consolidate three_pages).1 "de" cur)
             (Py.find (consolidate three_pages).1 "de" cur + Py.len "de")
       ∧ located (consolidate three_pages).1 "de" cur
           (Py.find (consolidate three_pages).1 "de" cur)).
Proof.
  apply (attribution_cursor_advances encoding_ok encode_chars
           (consolidate three_pages).1 (consolidate three_pages).2 None
           ["abc"; "de"; "fghi"] ["abc"] "de" ["fghi"]).
  - repeat constructor; by eexists.
  - reflexivity.
Defined.

Lemma summary_page_range_witness :
  let c := {| SummaryChunk.chunk_index := 1;
              SummaryChunk.text := "de";
              SummaryChunk.char_count := 2;
              SummaryChunk.token_count := 2;
              SummaryChunk.page_numbers := [2];
              SummaryChunk.page_range := Some "2-2";
              SummaryChunk.document_id := Some "doc";
              SummaryChunk.chunk_type := "summary" |} in
  (SummaryChunk.page_numbers c = [] ∧ SummaryChunk.page_range c = Some "Unknown")
  ∨ (∃ lo hi,
       lo ∈ SummaryChunk.page_numbers c
       ∧ hi ∈ SummaryChunk.page_numbers c
       ∧ (∀ p, p ∈ SummaryChunk.page_numbers c → lo ≤ p ≤ hi)
       ∧ SummaryChunk.page_range c
         = Some (Py.str_int lo +:+ "-" +:+ Py.str_int hi)).
Proof.
  intros c.
  apply (summary_page_range encoding_ok encode_chars (splitter_of ["abc"; "de"; "e"])
           three_pages 1000 100 (Some "doc") _ c eq_refl).
  apply elem_of_cons. right. apply elem_of_cons. by left.
Defined.

Lemma token_count_failure_propagates_witness :
  ∃ e failed,
    failed ∈ ["abc"]
    ∧ count_tokens_default encoding_down encode_chars failed = Err e
    ∧ create_rag_chunks encoding_down encode_chars (splitter_of ["abc"])
        single_page 1000 100 (Some "doc") = Err e
    ∧ create_summary_chunks encoding_down encode_chars (splitter_of ["abc"])
        single_page 1000 100 (Some "doc") = Err e.
Proof.
  apply (token_count_failure_propagates encoding_down encode_chars
           (splitter_of ["abc"]) single_page 1000 100 (Some "doc") ["abc"] "abc").
  - reflexivity.
  - by left.
  - intros [n Hn]. discriminate.
Defined.

(** C7. A segment that is not in the buffer: [find] returns [-1], the
    overlap test runs on the range from [-1] to [len - 1], and both chunkers
    attribute the chunk to page 1 instead of to no page. *)
Theorem missing_segment_is_attributed :
  Py.find (consolidate single_page).1 "xyz" 0 = -1
  ∧ create_rag_chunks encoding_ok encode_chars (splitter_of ["xyz"])
      single_page 1000 100 (Some "doc")
    = Ok [ {| RagChunk.chunk_index := 0;
              RagChunk.text := "xyz";
              RagChunk.char_count := 3;
              RagChunk.token_count := 3;
              RagChunk.page_numbers := [1];
              RagChunk.page_number := Some 1;
              RagChunk.document_id := Some "doc";
              RagChunk.chunk_type := "rag" |} ]
  ∧ create_summary_chunks encoding_ok encode_chars (splitter_of ["xyz"])
      single_page 1000 100 (Some "doc")
    = Ok [ {| SummaryChunk.chunk_index := 0;
              SummaryChunk.text := "xyz";
              SummaryChunk.char_count := 3;
              SummaryChunk.token_count := 3;
              SummaryChunk.page_numbers := [1];
              SummaryChunk.page_range := Some "1-1";
              SummaryChunk.document_id := Some "doc";
              SummaryChunk.chunk_type := "summary" |} ].
Proof. repeat split; reflexivity. Qed.

(** C8, as stated, fails: a summary chunk without page numbers has the
    [page_range] ["Unknown"], with a capital letter. *)
Lemma empty_page_range_is_capitalised :
  create_summary_chunks encoding_ok encode_chars (splitter_of ["z"])
    single_page 1000 100 (Some "doc")
  = Ok [ {| SummaryChunk.chunk_index := 0;
            SummaryChunk.text := "z";
            SummaryChunk.char_count := 1;
            SummaryChunk.token_count := 1;
            SummaryChunk.page_numbers := [];
            SummaryChunk.page_range := Some "Unknown";
            SummaryChunk.document_id := Some "doc";
            SummaryChunk.chunk_type := "summary" |} ]
  ∧ page_range_of [] ≠ "unknown".
Proof. split; [reflexivity | discriminate]. Qed.

(** C9, as stated, fails: when the encoding cannot be loaded,
    [create_rag_chunks] raises and produces no chunk. *)
Lemma token_count_failure_blocks_chunking :
  count_tokens_default encoding_down encode_chars "abc"
  = Err (Exception "encoding unavailable")
  ∧ create_rag_chunks encoding_down encode_chars (splitter_of ["abc"])
      single_page 1000 100 (Some "doc")
    = Err (Exception "encoding unavailable")
  ∧ ¬ is_Ok (create_rag_chunks encoding_down encode_chars (splitter_of ["abc"])
               single_page 1000 100 (Some "doc")).
Proof. repeat split. intros [chunks Hc]. discriminate. Qed.

(** ** The cursor and overlapping segments *)

(** With overlapping segments the one-character advance matters: after
    ["abc"] is found at 0 the cursor is 1, where ["bc"] is found; a lookup
    from the end of the first segment would miss it. *)
Example overlapping_segments_are_found :
  (∃ first second,
     create_rag_chunks encoding_ok encode_chars (splitter_of ["abc"; "bc"])
       single_page 3 2 None = Ok [first; second]
     ∧ RagChunk.page_numbers first = [1]
     ∧ RagChunk.page_numbers second = [1])
  ∧ Py.find (consolidate single_page).1 "bc" 1 = 1
  ∧ Py.find (consolidate single_page).1 "bc" 3 = -1.
Proof. split; [by do 2 eexists | by split]. Qed.

(** * Further properties *)

(** ** The markers as a partition of the buffer *)

Section Markers.

Implicit Types (pages : list Page.t) (page : Page.t) (marker : Marker.t).

Lemma consolidate_from_buffer pages full_text page_markers :
  (consolidate_from (full_text, page_markers) pages).1
  = full_text +:+ buffer_of pages.
Proof.
  revert full_text page_markers.
  induction pages as [|page pages IH]; intros full_text page_markers.
  - simpl. clear. induction full_text as [|a s IHs]; [done|].
    rewrite app_String. by rewrite <- IHs.
  - change (consolidate_from (full_text, page_markers) (page :: pages))
      with (consolidate_from (consolidate_step (full_text, page_markers) page) pages).
    unfold consolidate_step. rewrite IH. simpl. by rewrite !app_assoc_str.
Qed.

(** X1. The consolidated buffer is the text of the pages, in their order,
    each followed by the separator, and there is one marker per page. *)
Theorem consolidate_buffer pages :
  (consolidate pages).1 = buffer_of pages
  ∧ length (consolidate pages).2 = length pages.
Proof.
  split; [|apply consolidate_length].
  unfold consolidate. by rewrite consolidate_from_buffer.
Qed.

Lemma filter_none {A} (P : A → Prop) `{∀ x, Decision (P x)} (l : list A) :
  Forall (λ x, ¬ P x) l → filter P l = [].
Proof.
  induction 1 as [|x l Hx _ IH]; [done|]. by rewrite filter_cons_False.
Qed.

(** A range that starts inside the buffer meets the marker that holds its
    start. *)
Lemma overlapping_hits_marker pages chunk_start chunk_end :
  0 ≤ chunk_start < Py.len (consolidate pages).1 →
  chunk_start < chunk_end →
  overlapping (consolidate pages).2 chunk_start chunk_end ≠ [].
Proof.
  intros Hstart Hlt.
  destruct (consolidate_covers pages chunk_start Hstart) as (i & marker & Hi & Hrange).
  unfold overlapping. intros Hnil%fmap_nil_inv.
  assert (marker ∈ filter (λ m, chunk_start < Marker.end_pos m
                                ∧ chunk_end > Marker.start_pos m)
                     (consolidate pages).2) as Hin.
  { apply list_elem_of_filter. split; [lia|]. apply list_elem_of_lookup. by exists i. }
  rewrite Hnil in Hin. by apply elem_of_nil in Hin.
Qed.

(** X2. A range that starts inside the buffer is attributed to at least one
    page. *)
Theorem overlapping_nonempty pages chunk_start chunk_end :
  0 ≤ chunk_start < Py.len (consolidate pages).1 →
  chunk_start < chunk_end →
  overlapping (consolidate pages).2 chunk_start chunk_end ≠ [].
Proof. intros Hstart Hlt. by apply overlapping_hits_marker. Qed.

(** X3. A non-empty range that lies within the range of one page is
    attributed to that page and to no other. *)
Theorem overlapping_within_page pages i page marker chunk_start chunk_end :
  pages !! i = Some page →
  (consolidate pages).2 !! i = Some marker →
  Marker.start_pos marker ≤ chunk_start →
  chunk_end ≤ Marker.end_pos marker →
  chunk_start < chunk_end →
  overlapping (consolidate pages).2 chunk_start chunk_end = [Page.page_number page].
Proof.
  intros Hp Hm Hlo Hhi Hlt.
  destruct (consolidate_lookup _ _ _ _ Hp Hm) as (Hnum & _).
  unfold overlapping.
  rewrite <- (take_drop_middle _ _ _ Hm) at 1.
  rewrite filter_app, filter_cons_True by lia.
  rewrite !filter_none; [by rewrite <- Hnum| |].
  - apply Forall_forall. intros later [k Hk]%list_elem_of_lookup.
    rewrite lookup_drop in Hk.
    pose proof (consolidate_ordered pages i (S i + k) marker later
                  ltac:(lia) Hm Hk). lia.
  - apply Forall_forall. intros earlier [j Hj]%list_elem_of_lookup.
    apply lookup_take_Some in Hj as [Hj Hji].
    pose proof (consolidate_ordered pages j i earlier marker Hji Hj Hm). lia.
Qed.

(** The pages a range is attributed to are pages of the input, in the order
    of the input. *)
Lemma overlapping_sublist pages chunk_start chunk_end :
  overlapping (consolidate pages).2 chunk_start chunk_end
  `sublist_of` (Page.page_number <$> pages).
Proof.
  rewrite <- consolidate_page_numbers. unfold overlapping.
  apply fmap_sublist, sublist_filter.
Qed.

Lemma StronglySorted_sublist {A} (R : relation A) (l k : list A) :
  l `sublist_of` k → StronglySorted R k → StronglySorted R l.
Proof.
  induction 1 as [|x l k Hsub IH|x l k Hsub IH]; intros Hk; [done| |].
  - apply StronglySorted_inv in Hk as [Hk Hx]. constructor; [by apply IH|].
    apply Forall_forall. intros y Hy. eapply Forall_forall; [exact Hx|].
    by eapply elem_of_sublist.
  - apply StronglySorted_inv in Hk as [Hk _]. by apply IH.
Qed.

End Markers.

(** ** The chunks the two chunkers return *)

Lemma substring_nonempty_lt (n m : nat) (s t : string) :
  substring n m s = t → t ≠ EmptyString → (n < String.length s)%nat.
Proof.
  revert n m. induction s as [|a s IH]; intros n m Hsub Hne.
  - destruct n, m; simpl in Hsub; congruence.
  - destruct n as [|n]; simpl; [lia|]. simpl in Hsub.
    specialize (IH _ _ Hsub Hne). lia.
Qed.

(** Nothing that [str] prints for an integer starts the word ["Unknown"]. *)
Lemma str_int_not_Unknown (z : Z) (s : string) : Py.str_int z +:+ s ≠ "Unknown".
Proof.
  unfold Py.str_int. destruct z as [|p|p]; simpl.
  - discriminate.
  - destruct (Pos.to_uint p); simpl; discriminate.
  - discriminate.
Qed.

Section Shapes.

Context {Encoding : Type}.
Variable encoding_for_model : string → result Encoding.
Variable encode : Encoding → string → result (list nat).
Variable split_text : Z → Z → string → result (list string).

Local Abbreviation count := (count_tokens_default encoding_for_model encode).
Local Abbreviation rag_step' := (rag_step encoding_for_model encode).
Local Abbreviation rag_loop' := (rag_loop encoding_for_model encode).
Local Abbreviation summary_step' := (summary_step encoding_for_model encode).
Local Abbreviation summary_loop' := (summary_loop encoding_for_model encode).
Local Abbreviation rag_ok := (rag_chunk_ok encoding_for_model encode).
Local Abbreviation summary_ok := (summary_chunk_ok encoding_for_model encode).
Local Abbreviation create_rag_chunks' :=
  (create_rag_chunks encoding_for_model encode split_text).
Local Abbreviation create_summary_chunks' :=
  (create_summary_chunks encoding_for_model encode split_text).

Implicit Types (full_text : string) (page_markers : list Marker.t)
  (document_id : option string) (idx : nat) (cur : Z) (segments : list string)
  (pages : list Page.t).

Lemma rag_step_inv full_text page_markers document_id chunks cur idx t st' :
  rag_step' full_text page_markers document_id (chunks, cur) idx t = Ok st' →
  ∃ c, st' = (chunks ++ [c], Py.find full_text t cur + 1)
       ∧ rag_ok full_text page_markers document_id idx t cur c.
Proof.
  unfold rag_step. destruct (count t) as [n|e] eqn:Hn; simpl; [|done].
  intros [= <-]. eexists. split; [done|]. by repeat split.
Qed.

Lemma summary_step_inv full_text page_markers document_id chunks cur idx t st' :
  summary_step' full_text page_markers document_id (chunks, cur) idx t = Ok st' →
  ∃ c, st' = (chunks ++ [c], Py.find full_text t cur + 1)
       ∧ summary_ok full_text page_markers document_id idx t cur c.
Proof.
  unfold summary_step. destruct (count t) as [n|e] eqn:Hn; simpl; [|done].
  intros [= <-]. eexists. split; [done|]. by repeat split.
Qed.

(** What the loops append: one chunk per segment, each built from its
    segment and a cursor that is not negative. *)
Lemma rag_loop_shape
    full_text page_markers document_id chunks cur idx segments chunks' cur' :
  rag_loop' full_text page_markers document_id (chunks, cur) idx segments
  = Ok (chunks', cur') →
  0 ≤ cur →
  0 ≤ cur'
  ∧ ∃ new,
      chunks' = chunks ++ new
      ∧ length new = length segments
      ∧ ∀ j c, new !! j = Some c →
          ∃ t at_, segments !! j = Some t ∧ 0 ≤ at_
            ∧ rag_ok full_text page_markers document_id (idx + j) t at_ c.
Proof.
  revert chunks cur idx. induction segments as [|t segments IH]; intros chunks cur idx.
  - simpl. intros [= <- <-] Hcur. split; [done|]. exists []. by rewrite app_nil_r.
  - rewrite rag_loop_cons.
    intros ([chunks1 cur1] & Hstep & Hrun)%bind_Ok_inv Hcur.
    apply rag_step_inv in Hstep as (c & [= -> ->] & Hc).
    pose proof (find_ge_minus_one full_text t cur).
    destruct (IH _ _ _ Hrun ltac:(lia)) as (Hcur' & new & -> & Hlen & Hnew).
    split; [done|]. exists (c :: new).
    split; [by rewrite <- app_assoc|]. split; [simpl; lia|].
    intros [|j] c'; simpl.
    + intros [= <-]. exists t, cur. by rewrite Nat.add_0_r.
    + intros Hj. destruct (Hnew _ _ Hj) as (t' & at_ & Ht & Hat & Hok).
      exists t', at_. by replace (idx + S j)%nat with (S idx + j)%nat by lia.
Qed.

Lemma summary_loop_shape
    full_text page_markers document_id chunks cur idx segments chunks' cur' :
  summary_loop' full_text page_markers document_id (chunks, cur) idx segments
  = Ok (chunks', cur') →
  0 ≤ cur →
  0 ≤ cur'
  ∧ ∃ new,
      chunks' = chunks ++ new
      ∧ length new = length segments
      ∧ ∀ j c, new !! j = Some c →
          ∃ t at_, segments !! j = Some t ∧ 0 ≤ at_
            ∧ summary_ok full_text page_markers document_id (idx + j) t at_ c.
Proof.
  revert chunks cur idx. induction segments as [|t segments IH]; intros chunks cur idx.
  - simpl. intros [= <- <-] Hcur. split; [done|]. exists []. by rewrite app_nil_r.
  - rewrite summary_loop_cons.
    intros ([chunks1 cur1] & Hstep & Hrun)%bind_Ok_inv Hcur.
    apply summary_step_inv in Hstep as (c & [= -> ->] & Hc).
    pose proof (find_ge_minus_one full_text t cur).
    destruct (IH _ _ _ Hrun ltac:(lia)) as (Hcur' & new & -> & Hlen & Hnew).
    split; [done|]. exists (c :: new).
    split; [by rewrite <- app_assoc|]. split; [simpl; lia|].
    intros [|j] c'; simpl.
    + intros [= <-]. exists t, cur. by rewrite Nat.add_0_r.
    + intros Hj. destruct (Hnew _ _ Hj) as (t' & at_ & Ht & Hat & Hok).
      exists t', at_. by replace (idx + S j)%nat with (S idx + j)%nat by lia.
Qed.

Lemma create_rag_chunks_inv pages chunk_size chunk_overlap document_id chunks :
  create_rag_chunks' pages chunk_size chunk_overlap document_id = Ok chunks →
  ∃ segments,
    split_text chunk_size chunk_overlap (consolidate pages).1 = Ok segments
    ∧ length chunks = length segments
    ∧ ∀ j c, chunks !! j = Some c →
        ∃ t at_, segments !! j = Some t ∧ 0 ≤ at_
          ∧ rag_ok (consolidate pages).1 (consolidate pages).2 document_id j t at_ c.
Proof.
  rewrite create_rag_chunks_unfold.
  intros (segments & Hsplit & ([chunks' cur'] & Hrun & [= <-])%bind_Ok_inv)%bind_Ok_inv.
  exists segments. split; [done|].
  apply rag_loop_shape in Hrun as (_ & new & -> & Hlen & Hnew); [|done].
  simpl. split; [done|]. apply Hnew.
Qed.

Lemma create_summary_chunks_inv' pages chunk_size chunk_overlap document_id chunks :
  create_summary_chunks' pages chunk_size chunk_overlap document_id = Ok chunks →
  ∃ segments,
    split_text chunk_size chunk_overlap (consolidate pages).1 = Ok segments
    ∧ length chunks = length segments
    ∧ ∀ j c, chunks !! j = Some c →
        ∃ t at_, segments !! j = Some t ∧ 0 ≤ at_
          ∧ summary_ok (consolidate pages).1 (consolidate pages).2 document_id j t at_ c.
Proof.
  rewrite create_summary_chunks_unfold.
  intros (segments & Hsplit & ([chunks' cur'] & Hrun & [= <-])%bind_Ok_inv)%bind_Ok_inv.
  exists segments. split; [done|].
  apply summary_loop_shape in Hrun as (_ & new & -> & Hlen & Hnew); [|done].
  simpl. split; [done|]. apply Hnew.
Qed.

(** X4. [create_rag_chunks] returns one chunk per segment of the splitter,
    in order: the chunk at position [j] has [chunk_index] [j], the text of
    segment [j], its length as [char_count], its token count, the first of
    its page numbers (or none) as [page_number], the given [document_id] and
    the type ["rag"]. *)
Theorem create_rag_chunks_shape pages chunk_size chunk_overlap document_id chunks :
  create_rag_chunks' pages chunk_size chunk_overlap document_id = Ok chunks →
  ∃ segments,
    split_text chunk_size chunk_overlap (consolidate pages).1 = Ok segments
    ∧ length chunks = length segments
    ∧ ∀ j c, chunks !! j = Some c →
        RagChunk.chunk_index c = j
        ∧ segments !! j = Some (RagChunk.text c)
        ∧ RagChunk.char_count c = Py.len (RagChunk.text c)
        ∧ count (RagChunk.text c) = Ok (RagChunk.token_count c)
        ∧ RagChunk.page_number c = head (RagChunk.page_numbers c)
        ∧ RagChunk.document_id c = document_id
        ∧ RagChunk.chunk_type c = "rag".
Proof.
  intros (segments & Hsplit & Hlen & Hc)%create_rag_chunks_inv.
  exists segments. split; [done|]. split; [done|]. intros j c Hj.
  destruct (Hc _ _ Hj) as (t & at_ & Ht & _ & Hi & Htext & Hchar & Htok & _ & Hpn & Hd & Hty).
  rewrite Htext. by repeat split.
Qed.

(** X5. [create_summary_chunks] returns one chunk per segment of the
    splitter, in order, with the same fields and the type ["summary"]; the
    key [page_range] is always present. *)
Theorem create_summary_chunks_shape
    pages chunk_size chunk_overlap document_id chunks :
  create_summary_chunks' pages chunk_size chunk_overlap document_id = Ok chunks →
  ∃ segments,
    split_text chunk_size chunk_overlap (consolidate pages).1 = Ok segments
    ∧ length chunks = length segments
    ∧ ∀ j c, chunks !! j = Some c →
        SummaryChunk.chunk_index c = j
        ∧ segments !! j = Some (SummaryChunk.text c)
        ∧ SummaryChunk.char_count c = Py.len (SummaryChunk.text c)
        ∧ count (SummaryChunk.text c) = Ok (SummaryChunk.token_count c)
        ∧ is_Some (SummaryChunk.page_range c)
        ∧ SummaryChunk.document_id c = document_id
        ∧ SummaryChunk.chunk_type c = "summary".
Proof.
  intros (segments & Hsplit & Hlen & Hc)%create_summary_chunks_inv'.
  exists segments. split; [done|]. split; [done|]. intros j c Hj.
  destruct (Hc _ _ Hj) as (t & at_ & Ht & _ & Hi & Htext & Hchar & Htok & _ & Hpr & Hd & Hty).
  rewrite Htext, Hpr. by repeat split.
Qed.

(** X6. The page numbers of a chunk of [create_rag_chunks] are page numbers
    of the input, in the order of the input and without repeating a page:
    for pages given in page order they are strictly ascending. *)
Theorem rag_page_numbers_in_page_order
    pages chunk_size chunk_overlap document_id chunks c :
  create_rag_chunks encoding_for_model encode split_text
    pages chunk_size chunk_overlap document_id = Ok chunks →
  c ∈ chunks →
  StronglySorted Z.lt (Page.page_number <$> pages) →
  RagChunk.page_numbers c `sublist_of` (Page.page_number <$> pages)
  ∧ StronglySorted Z.lt (RagChunk.page_numbers c).
Proof.
  intros (segments & _ & _ & Hc)%create_rag_chunks_inv [j Hj]%list_elem_of_lookup Hs.
  destruct (Hc _ _ Hj) as (t & at_ & _ & _ & _ & _ & _ & _ & -> & _).
  split; [apply overlapping_sublist|].
  eapply StronglySorted_sublist; [apply overlapping_sublist | done].
Qed.

(** X7. The same for the chunks of [create_summary_chunks]. *)
Theorem summary_page_numbers_in_page_order
    pages chunk_size chunk_overlap document_id chunks c :
  create_summary_chunks encoding_for_model encode split_text
    pages chunk_size chunk_overlap document_id = Ok chunks →
  c ∈ chunks →
  StronglySorted Z.lt (Page.page_number <$> pages) →
  SummaryChunk.page_numbers c `sublist_of` (Page.page_number <$> pages)
  ∧ StronglySorted Z.lt (SummaryChunk.page_numbers c).
Proof.
  intros (segments & _ & _ & Hc)%create_summary_chunks_inv' [j Hj]%list_elem_of_lookup Hs.
  destruct (Hc _ _ Hj) as (t & at_ & _ & _ & _ & _ & _ & _ & -> & _).
  split; [apply overlapping_sublist|].
  eapply StronglySorted_sublist; [apply overlapping_sublist | done].
Qed.

(** The chunk of the segment that follows the segments [pre]. *)
Lemma rag_loop_at full_text page_markers document_id pre t chunks cur chunks' cur' :
  rag_loop' full_text page_markers document_id ([], 0) 0 pre = Ok (chunks, cur) →
  rag_loop' full_text page_markers document_id ([], 0) 0 (pre ++ [t])
  = Ok (chunks', cur') →
  0 ≤ cur
  ∧ ∃ c, chunks' = chunks ++ [c]
         ∧ cur' = Py.find full_text t cur + 1
         ∧ rag_ok full_text page_markers document_id (length pre) t cur c.
Proof.
  intros Hpre Hrun.
  apply rag_loop_shape in Hpre as Hshape; [|done]. destruct Hshape as [Hcur _].
  split; [done|].
  rewrite rag_loop_app, Hpre, bind_Ok, rag_loop_cons in Hrun.
  apply bind_Ok_inv in Hrun as (st & Hstep & Hnil).
  apply rag_step_inv in Hstep as (c & -> & Hc). simpl in Hnil.
  injection Hnil as <- <-. by exists c.
Qed.

Lemma summary_loop_at
    full_text page_markers document_id pre t chunks cur chunks' cur' :
  summary_loop' full_text page_markers document_id ([], 0) 0 pre = Ok (chunks, cur) →
  summary_loop' full_text page_markers document_id ([], 0) 0 (pre ++ [t])
  = Ok (chunks', cur') →
  0 ≤ cur
  ∧ ∃ c, chunks' = chunks ++ [c]
         ∧ cur' = Py.find full_text t cur + 1
         ∧ summary_ok full_text page_markers document_id (length pre) t cur c.
Proof.
  intros Hpre Hrun.
  apply summary_loop_shape in Hpre as Hshape; [|done]. destruct Hshape as [Hcur _].
  split; [done|].
  rewrite summary_loop_app, Hpre, bind_Ok, summary_loop_cons in Hrun.
  apply bind_Ok_inv in Hrun as (st & Hstep & Hnil).
  apply summary_step_inv in Hstep as (c & -> & Hc). simpl in Hnil.
  injection Hnil as <- <-. by exists c.
Qed.

(** A segment that is found starts inside the buffer. *)
Lemma found_inside full_text t cur :
  0 ≤ cur → t ≠ EmptyString → 0 ≤ Py.find full_text t cur →
  0 ≤ Py.find full_text t cur < Py.len full_text
  ∧ Py.find full_text t cur < Py.find full_text t cur + Py.len t.
Proof.
  intros Hcur Hne Hfound.
  destruct (find_found full_text t cur Hcur Hfound) as (_ & Hsub & _).
  apply substring_nonempty_lt in Hsub; [|done].
  unfold Py.len. destruct t; [done|]. simpl. lia.
Qed.

(** X8. In [create_rag_chunks], a non-empty segment that is found from the
    cursor gets a [page_number], and it is a page number of the input. *)
Theorem found_segment_has_page
    pages document_id pre t chunks cur chunks' cur' :
  rag_loop' (consolidate pages).1 (consolidate pages).2 document_id ([], 0) 0 pre
  = Ok (chunks, cur) →
  rag_loop' (consolidate pages).1 (consolidate pages).2 document_id ([], 0) 0
    (pre ++ [t]) = Ok (chunks', cur') →
  t ≠ EmptyString →
  0 ≤ Py.find (consolidate pages).1 t cur →
  ∃ c p,
    chunks' = chunks ++ [c]
    ∧ RagChunk.text c = t
    ∧ RagChunk.page_number c = Some p
    ∧ p ∈ Page.page_number <$> pages.
Proof.
  intros Hpre Hrun Hne Hfound.
  destruct (rag_loop_at _ _ _ _ _ _ _ _ _ Hpre Hrun)
    as (Hcur & c & -> & _ & _ & Htext & _ & _ & Hpages & Hpn & _).
  destruct (found_inside _ _ _ Hcur Hne Hfound) as [Hin Hlt].
  pose proof (overlapping_hits_marker pages _ _ Hin Hlt) as Hnonempty.
  rewrite <- Hpages in Hnonempty.
  destruct (RagChunk.page_numbers c) as [|p ps] eqn:Hps; [done|].
  exists c, p. split; [done|]. split; [done|]. split; [by rewrite Hpn|].
  apply (elem_of_sublist (p :: ps)); [by left|].
  rewrite Hpages. apply overlapping_sublist.
Qed.

(** X9. In [create_summary_chunks], a non-empty segment that is found from
    the cursor has page numbers, and its [page_range] is not ["Unknown"]. *)
Theorem found_segment_has_page_range
    pages document_id pre t chunks cur chunks' cur' :
  summary_loop' (consolidate pages).1 (consolidate pages).2 document_id ([], 0) 0 pre
  = Ok (chunks, cur) →
  summary_loop' (consolidate pages).1 (consolidate pages).2 document_id ([], 0) 0
    (pre ++ [t]) = Ok (chunks', cur') →
  t ≠ EmptyString →
  0 ≤ Py.find (consolidate pages).1 t cur →
  ∃ c,
    chunks' = chunks ++ [c]
    ∧ SummaryChunk.text c = t
    ∧ SummaryChunk.page_numbers c ≠ []
    ∧ SummaryChunk.page_range c ≠ Some "Unknown".
Proof.
  intros Hpre Hrun Hne Hfound.
  destruct (summary_loop_at _ _ _ _ _ _ _ _ _ Hpre Hrun)
    as (Hcur & c & -> & _ & _ & Htext & _ & _ & Hpages & Hpr & _).
  destruct (found_inside _ _ _ Hcur Hne Hfound) as [Hin Hlt].
  pose proof (overlapping_hits_marker pages _ _ Hin Hlt) as Hnonempty.
  rewrite <- Hpages in Hnonempty.
  exists c. repeat split; try done.
  rewrite Hpr. destruct (SummaryChunk.page_numbers c) as [|p ps]; [done|].
  simpl. intros [= Heq]. by apply str_int_not_Unknown in Heq.
Qed.

(** The two loops move the cursor alike and attribute alike. *)
Lemma loops_agree full_text page_markers document_id document_id'
    segments rag_chunks summary_chunks cur idx idx' rag_chunks' summary_chunks'
    cur1 cur2 :
  rag_loop' full_text page_markers document_id (rag_chunks, cur) idx segments
  = Ok (rag_chunks', cur1) →
  summary_loop' full_text page_markers document_id' (summary_chunks, cur) idx' segments
  = Ok (summary_chunks', cur2) →
  cur1 = cur2
  ∧ ∃ rag_new summary_new,
      rag_chunks' = rag_chunks ++ rag_new
      ∧ summary_chunks' = summary_chunks ++ summary_new
      ∧ Forall2 (λ r s,
                   RagChunk.text r = SummaryChunk.text s
                   ∧ RagChunk.page_numbers r = SummaryChunk.page_numbers s
                   ∧ RagChunk.token_count r = SummaryChunk.token_count s
                   ∧ SummaryChunk.page_range s
                     = Some (page_range_of (RagChunk.page_numbers r)))
          rag_new summary_new.
Proof.
  revert rag_chunks summary_chunks cur idx idx'.
  induction segments as [|t segments IH];
    intros rag_chunks summary_chunks cur idx idx'.
  - simpl. intros [= <- <-] [= <- <-]. split; [done|].
    exists [], []. by rewrite !app_nil_r.
  - rewrite rag_loop_cons, summary_loop_cons.
    intros ([rc1 c1] & Hrs & Hrun1)%bind_Ok_inv ([sc1 c2] & Hss & Hrun2)%bind_Ok_inv.
    apply rag_step_inv in Hrs as (r & [= -> ->] & Hr).
    apply summary_step_inv in Hss as (s & [= -> ->] & Hs).
    destruct (IH _ _ _ _ _ Hrun1 Hrun2) as (-> & rag_new & summary_new & -> & -> & Hall).
    split; [done|]. exists (r :: rag_new), (s :: summary_new).
    rewrite <- !app_assoc. split; [done|]. split; [done|].
    constructor; [|done].
    destruct Hr as (_ & Hr1 & _ & Hr2 & Hr3 & _).
    destruct Hs as (_ & Hs1 & _ & Hs2 & Hs3 & Hs4 & _).
    rewrite Hr1, Hs1, Hr3, Hs4, Hs3. repeat split. congruence.
Qed.

(** X10. Called with the same pages and the same size and overlap, the two
    chunkers return chunks with the same texts, token counts and page
    numbers, position by position; the [page_range] of the summary chunk is
    the range of the page numbers of the retrieval chunk. *)
Theorem chunkers_agree pages chunk_size chunk_overlap document_id document_id'
    rag_chunks summary_chunks :
  create_rag_chunks' pages chunk_size chunk_overlap document_id = Ok rag_chunks →
  create_summary_chunks' pages chunk_size chunk_overlap document_id'
  = Ok summary_chunks →
  length rag_chunks = length summary_chunks
  ∧ ∀ j r s, rag_chunks !! j = Some r → summary_chunks !! j = Some s →
      RagChunk.text r = SummaryChunk.text s
      ∧ RagChunk.page_numbers r = SummaryChunk.page_numbers s
      ∧ RagChunk.token_count r = SummaryChunk.token_count s
      ∧ SummaryChunk.page_range s = Some (page_range_of (RagChunk.page_numbers r)).
Proof.
  rewrite create_rag_chunks_unfold, create_summary_chunks_unfold.
  intros (segments & Hsplit & ([rc c1] & Hrun1 & [= <-])%bind_Ok_inv)%bind_Ok_inv.
  rewrite Hsplit, bind_Ok.
  intros ([sc c2] & Hrun2 & [= <-])%bind_Ok_inv.
  destruct (loops_agree _ _ _ _ _ _ _ _ _ _ _ _ _ _ Hrun1 Hrun2)
    as (_ & rag_new & summary_new & -> & -> & Hall).
  simpl. split; [by eapply Forall2_length|].
  intros j r s Hr Hs. by apply (Forall2_lookup_lr _ _ _ _ _ _ Hall Hr Hs).
Qed.

End Shapes.

(** ** The three stages in sequence *)

Section Graph.

Variable llm : prompt → result string.

Implicit Types (state : DocumentState.t) (order : list nat).

(** The prompt of the reduce stage for the summaries [summaries]. *)
Lemma reduce_synthesize_unfold state :
  reduce_synthesize llm state =
  match llm (SynthesisPrompt
               (default "Unknown Document"
                  (Metadata.title (DocumentState.document_metadata state)))
               (from_option Py.str_int "Unknown"
                  (Metadata.page_count (DocumentState.document_metadata state)))
               (length (DocumentState.chunk_summaries state))
               (Py.join (Py.sep +:+ "---" +:+ Py.sep)
                  (imap section_label (DocumentState.chunk_summaries state)))) with
  | Err e => Raised e state
  | Ok content =>
      Returned (DocumentState.set_status "complete"
                  (DocumentState.set_final_summary content state))
  end.
Proof. done. Qed.

(** The map stage after the distribute stage, when every call succeeds. *)
Lemma map_after_distribute order state :
  (∀ chunk, chunk ∈ DocumentState.large_chunks state →
     is_Ok (summarize_chunk_async llm chunk
              (length (DocumentState.large_chunks state)))) →
  ∃ summaries,
    Forall2 (λ chunk summary,
               summarize_chunk_async llm chunk
                 (length (DocumentState.large_chunks state)) = Ok summary)
      (DocumentState.large_chunks state) summaries
    ∧ map_summarize llm order (distribute_chunks state)
      = Returned (DocumentState.set_status "reducing"
                    (DocumentState.set_summaries_completed (length summaries)
                       (DocumentState.set_chunk_summaries summaries
                          (distribute_chunks state)))).
Proof.
  intros Hok.
  destruct (gather_all_Ok order (map_tasks llm (distribute_chunks state)))
    as (summaries & Hg & Htasks).
  { unfold map_tasks. simpl. apply Forall_fmap, Forall_forall. intros chunk Hin.
    by apply Hok. }
  exists summaries. split; [|by rewrite map_summarize_unfold, Hg].
  unfold map_tasks in Htasks. simpl in Htasks.
  apply Forall2_same_length_lookup. split.
  { apply (f_equal length) in Htasks. by rewrite !length_fmap in Htasks. }
  intros i chunk summary Hc Hs.
  apply (f_equal (λ l, l !! i)) in Htasks.
  rewrite !list_lookup_fmap, Hc, Hs in Htasks. simpl in Htasks. congruence.
Qed.

(** The run of the three stages when every call succeeds. *)
Lemma ainvoke_returns order state :
  (∀ chunk, chunk ∈ DocumentState.large_chunks state →
     is_Ok (summarize_chunk_async llm chunk
              (length (DocumentState.large_chunks state)))) →
  (∀ title page_count n text, is_Ok (llm (SynthesisPrompt title page_count n text))) →
  ∃ final,
    ainvoke llm order state = Returned final
    ∧ DocumentState.status final = "complete"
    ∧ DocumentState.total_chunks final = length (DocumentState.large_chunks state)
    ∧ DocumentState.summaries_completed final
      = length (DocumentState.large_chunks state)
    ∧ Forall2 (λ chunk summary,
                 summarize_chunk_async llm chunk
                   (length (DocumentState.large_chunks state)) = Ok summary)
        (DocumentState.large_chunks state) (DocumentState.chunk_summaries final)
    ∧ llm (SynthesisPrompt
             (default "Unknown Document"
                (Metadata.title (DocumentState.document_metadata state)))
             (from_option Py.str_int "Unknown"
                (Metadata.page_count (DocumentState.document_metadata state)))
             (length (DocumentState.large_chunks state))
             (Py.join (Py.sep +:+ "---" +:+ Py.sep)
                (imap section_label (DocumentState.chunk_summaries final))))
      = Ok (DocumentState.final_summary final)
    ∧ DocumentState.document_id final = DocumentState.document_id state
    ∧ DocumentState.document_metadata final = DocumentState.document_metadata state
    ∧ DocumentState.large_chunks final = DocumentState.large_chunks state
    ∧ DocumentState.error_message final = DocumentState.error_message state.
Proof.
  intros Hmap Hsyn.
  destruct (map_after_distribute order state Hmap) as (summaries & Hall & Hrun).
  unfold ainvoke. rewrite Hrun, reduce_synthesize_unfold. simpl.
  pose proof (Forall2_length _ _ _ Hall) as Hlen.
  destruct (Hsyn (default "Unknown Document"
                    (Metadata.title (DocumentState.document_metadata state)))
                 (from_option Py.str_int "Unknown"
                    (Metadata.page_count (DocumentState.document_metadata state)))
                 (length summaries)
                 (Py.join (Py.sep +:+ "---" +:+ Py.sep) (imap section_label summaries)))
    as [content Hcontent].
  rewrite Hcontent. eexists. split; [done|]. simpl.
  repeat split; try done. by rewrite Hlen.
Qed.

(** X11. When every section call and the synthesis call succeed, the run
    returns a state with status ["complete"]: the counters are the number
    of chunks, [chunk_summaries] holds the summary of each chunk in the
    order of the chunks, [final_summary] is the answer to the synthesis
    prompt built from them, and the input fields are untouched. *)
Theorem ainvoke_complete order state :
  (∀ chunk, chunk ∈ DocumentState.large_chunks state →
     is_Ok (summarize_chunk_async llm chunk
              (length (DocumentState.large_chunks state)))) →
  (∀ title page_count n text, is_Ok (llm (SynthesisPrompt title page_count n text))) →
  ∃ final,
    ainvoke llm order state = Returned final
    ∧ DocumentState.status final = "complete"
    ∧ DocumentState.total_chunks final = length (DocumentState.large_chunks state)
    ∧ DocumentState.summaries_completed final
      = length (DocumentState.large_chunks state)
    ∧ Forall2 (λ chunk summary,
                 summarize_chunk_async llm chunk
                   (length (DocumentState.large_chunks state)) = Ok summary)
        (DocumentState.large_chunks state) (DocumentState.chunk_summaries final)
    ∧ llm (SynthesisPrompt
             (default "Unknown Document"
                (Metadata.title (DocumentState.document_metadata state)))
             (from_option Py.str_int "Unknown"
                (Metadata.page_count (DocumentState.document_metadata state)))
             (length (DocumentState.large_chunks state))
             (Py.join (Py.sep +:+ "---" +:+ Py.sep)
                (imap section_label (DocumentState.chunk_summaries final))))
      = Ok (DocumentState.final_summary final)
    ∧ DocumentState.document_id final = DocumentState.document_id state
    ∧ DocumentState.document_metadata final = DocumentState.document_metadata state
    ∧ DocumentState.large_chunks final = DocumentState.large_chunks state
    ∧ DocumentState.error_message final = DocumentState.error_message state.
Proof. intros Hmap Hsyn. by apply ainvoke_returns. Qed.

(** X12. When the section calls succeed and the synthesis call fails, the
    run raises the exception of the synthesis call; the state it leaves has
    status ["reducing"], the summaries of all chunks, and the
    [final_summary] it started with. *)
Theorem ainvoke_synthesis_failure order state e :
  (∀ chunk, chunk ∈ DocumentState.large_chunks state →
     is_Ok (summarize_chunk_async llm chunk
              (length (DocumentState.large_chunks state)))) →
  (∀ title page_count n text, llm (SynthesisPrompt title page_count n text) = Err e) →
  ∃ left,
    ainvoke llm order state = Raised e left
    ∧ DocumentState.status left = "reducing"
    ∧ Forall2 (λ chunk summary,
                 summarize_chunk_async llm chunk
                   (length (DocumentState.large_chunks state)) = Ok summary)
        (DocumentState.large_chunks state) (DocumentState.chunk_summaries left)
    ∧ DocumentState.summaries_completed left
      = length (DocumentState.large_chunks state)
    ∧ DocumentState.final_summary left = DocumentState.final_summary state
    ∧ DocumentState.error_message left = DocumentState.error_message state.
Proof.
  intros Hmap Hsyn.
  destruct (map_after_distribute order state Hmap) as (summaries & Hall & Hrun).
  unfold ainvoke. rewrite Hrun, reduce_synthesize_unfold, Hsyn.
  pose proof (Forall2_length _ _ _ Hall) as Hlen.
  eexists. split; [done|]. simpl. by repeat split.
Qed.

(** X13. A state without chunks goes through all three stages: no section
    call is made, the synthesis prompt has 0 sections and an empty text,
    and its answer becomes the [final_summary] of a ["complete"] state. *)
Theorem ainvoke_without_chunks order state content :
  DocumentState.large_chunks state = [] →
  llm (SynthesisPrompt
         (default "Unknown Document"
            (Metadata.title (DocumentState.document_metadata state)))
         (from_option Py.str_int "Unknown"
            (Metadata.page_count (DocumentState.document_metadata state)))
         0 EmptyString) = Ok content →
  ∃ final,
    ainvoke llm order state = Returned final
    ∧ DocumentState.status final = "complete"
    ∧ DocumentState.final_summary final = content
    ∧ DocumentState.chunk_summaries final = []
    ∧ DocumentState.summaries_completed final = 0%nat
    ∧ DocumentState.total_chunks final = 0%nat.
Proof.
  intros Hempty Hsyn.
  destruct (map_after_distribute order state) as (summaries & Hall & Hrun).
  { rewrite Hempty. intros chunk Hin. by apply elem_of_nil in Hin. }
  rewrite Hempty in Hall. apply Forall2_nil_inv_l in Hall as ->.
  unfold ainvoke. rewrite Hrun, reduce_synthesize_unfold. simpl. rewrite Hsyn.
  eexists. split; [done|]. simpl. by rewrite Hempty.
Qed.

End Graph.

(** ** The summarization endpoint *)

Section Endpoint.

Implicit Types (llm : prompt → result string) (order : list nat) (doc_id : string)
  (documents_db : gmap string DocData.t) (doc_data : DocData.t).

Lemma summarize_document_unknown llm order doc_id documents_db :
  documents_db !! doc_id = None →
  summarize_document llm order doc_id documents_db
  = (HTTPException 404 "Document not found", documents_db).
Proof. intros Hdb. unfold summarize_document. by rewrite Hdb. Qed.

Lemma summarize_document_cached llm order doc_id documents_db doc_data c s :
  documents_db !! doc_id = Some doc_data →
  DocData.summary doc_data = Some (String c s) →
  summarize_document llm order doc_id documents_db
  = (JSONResponse 200 "already_summarized" (String c s) None, documents_db).
Proof. intros Hdb Hs. unfold summarize_document. by rewrite Hdb, Hs. Qed.

(** Without a summary the endpoint runs the graph and stores what it gives. *)
Lemma summarize_document_run llm order doc_id documents_db doc_data :
  documents_db !! doc_id = Some doc_data →
  ¬ summarized doc_data →
  summarize_document llm order doc_id documents_db
  = match ainvoke llm order (initial_state doc_id doc_data) with
    | Returned final_state =>
        (JSONResponse 200 "complete" (DocumentState.final_summary final_state)
           (Some (DocumentState.summaries_completed final_state)),
         <[doc_id := {| DocData.metadata := DocData.metadata doc_data;
                        DocData.summary_chunks := DocData.summary_chunks doc_data;
                        DocData.status := "summarized";
                        DocData.summary :=
                          Some (DocumentState.final_summary final_state) |}]>
           documents_db)
    | Raised e _ =>
        (HTTPException 500 ("Error during summarization: " +:+ str_exn e),
         <[doc_id := {| DocData.metadata := DocData.metadata doc_data;
                        DocData.summary_chunks := DocData.summary_chunks doc_data;
                        DocData.status := "error";
                        DocData.summary := DocData.summary doc_data |}]>
           documents_db)
    end.
Proof.
  intros Hdb Hnot. unfold summarize_document. rewrite Hdb.
  destruct (DocData.summary doc_data) as [[|c s]|] eqn:Hs; try done.
  exfalso. apply Hnot. by exists c, s.
Qed.

Lemma summarized_dec doc_data : summarized doc_data ∨ ¬ summarized doc_data.
Proof.
  unfold summarized. destruct (DocData.summary doc_data) as [[|c s]|].
  - right. by intros (c & s & [=]).
  - left. by exists c, s.
  - right. by intros (c & s & [=]).
Qed.

(** X14. [summarize_document] reads and writes the entry of its document
    only: every other entry of [documents_db] is as before, and no entry is
    added or removed. *)
Theorem summarize_document_frame llm order doc_id documents_db :
  (∀ other, other ≠ doc_id →
     (summarize_document llm order doc_id documents_db).2 !! other
     = documents_db !! other)
  ∧ dom (summarize_document llm order doc_id documents_db).2 = dom documents_db.
Proof.
  destruct (documents_db !! doc_id) as [doc_data|] eqn:Hdb.
  - assert (doc_id ∈ dom documents_db) as Hin by (apply elem_of_dom; eauto).
    destruct (summarized_dec doc_data) as [(c & s & Hs)|Hnot].
    + by rewrite (summarize_document_cached _ _ _ _ _ _ _ Hdb Hs).
    + rewrite (summarize_document_run _ _ _ _ _ Hdb Hnot).
      destruct (ainvoke llm order (initial_state doc_id doc_data)); simpl;
        (split; [intros other Hne; by rewrite lookup_insert_ne
                | rewrite dom_insert_L; set_solver]).
  - by rewrite (summarize_document_unknown _ _ _ _ Hdb).
Qed.

(** X15. Whatever the outcome, the entry of the document keeps its metadata
    and its summary chunks. *)
Theorem summarize_document_keeps_upload llm order doc_id documents_db doc_data :
  documents_db !! doc_id = Some doc_data →
  ∃ doc_data',
    (summarize_document llm order doc_id documents_db).2 !! doc_id = Some doc_data'
    ∧ DocData.metadata doc_data' = DocData.metadata doc_data
    ∧ DocData.summary_chunks doc_data' = DocData.summary_chunks doc_data.
Proof.
  intros Hdb. destruct (summarized_dec doc_data) as [(c & s & Hs)|Hnot].
  - rewrite (summarize_document_cached _ _ _ _ _ _ _ Hdb Hs). by exists doc_data.
  - rewrite (summarize_document_run _ _ _ _ _ Hdb Hnot).
    destruct (ainvoke llm order (initial_state doc_id doc_data)); simpl;
      rewrite lookup_insert_eq; by eexists.
Qed.

(** The endpoint on a document without a summary, when every call succeeds. *)
Lemma summarize_document_returns llm order doc_id documents_db doc_data :
  documents_db !! doc_id = Some doc_data →
  ¬ summarized doc_data →
  (∀ p, is_Ok (llm p)) →
  ∃ content,
    summarize_document llm order doc_id documents_db
    = (JSONResponse 200 "complete" content
         (Some (length (DocData.summary_chunks doc_data))),
       <[doc_id := {| DocData.metadata := DocData.metadata doc_data;
                      DocData.summary_chunks := DocData.summary_chunks doc_data;
                      DocData.status := "summarized";
                      DocData.summary := Some content |}]> documents_db).
Proof.
  intros Hdb Hnot Hllm. rewrite (summarize_document_run _ _ _ _ _ Hdb Hnot).
  destruct (ainvoke_returns llm order (initial_state doc_id doc_data))
    as (final & -> & _ & _ & Hn & _); [intros; apply Hllm | intros; apply Hllm |].
  simpl in Hn. rewrite Hn. by eexists.
Qed.

(** X16. For a document without a summary, when every call of the model
    succeeds the run of the graph on the state built from the document
    returns, and the endpoint answers 200 ["complete"] with the
    [final_summary] of that run and the number of chunks, and stores that
    summary with the status ["summarized"]. The [final_summary] is the
    answer of the model to the synthesis prompt built from the summaries of
    the document's chunks, in the order of the chunks. *)
Theorem summarize_document_complete llm order doc_id documents_db doc_data :
  documents_db !! doc_id = Some doc_data →
  ¬ summarized doc_data →
  (∀ p, is_Ok (llm p)) →
  ∃ final,
    ainvoke llm order (initial_state doc_id doc_data) = Returned final
    ∧ Forall2 (λ chunk summary,
                 summarize_chunk_async llm chunk
                   (length (DocData.summary_chunks doc_data)) = Ok summary)
        (DocData.summary_chunks doc_data) (DocumentState.chunk_summaries final)
    ∧ llm (SynthesisPrompt
             (default "Unknown Document" (Metadata.title (DocData.metadata doc_data)))
             (from_option Py.str_int "Unknown"
                (Metadata.page_count (DocData.metadata doc_data)))
             (length (DocData.summary_chunks doc_data))
             (Py.join (Py.sep +:+ "---" +:+ Py.sep)
                (imap section_label (DocumentState.chunk_summaries final))))
      = Ok (DocumentState.final_summary final)
    ∧ summarize_document llm order doc_id documents_db
      = (JSONResponse 200 "complete" (DocumentState.final_summary final)
           (Some (length (DocData.summary_chunks doc_data))),
         <[doc_id := {| DocData.metadata := DocData.metadata doc_data;
                        DocData.summary_chunks := DocData.summary_chunks doc_data;
                        DocData.status := "summarized";
                        DocData.summary :=
                          Some (DocumentState.final_summary final) |}]>
           documents_db).
Proof.
  intros Hdb Hnot Hllm. rewrite (summarize_document_run _ _ _ _ _ Hdb Hnot).
  destruct (ainvoke_returns llm order (initial_state doc_id doc_data))
    as (final & Hrun & _ & _ & Hn & Hall & Hsyn & _);
    [intros; apply Hllm | intros; apply Hllm |].
  simpl in Hn, Hall, Hsyn. exists final. rewrite Hrun, Hn. by repeat split.
Qed.

(** X17. A second request for a document that was summarized to a text that
    is not empty returns that text as ["already_summarized"], without
    calling the model and without touching [documents_db]. *)
Theorem summarize_document_twice
    llm order llm' order' doc_id documents_db documents_db' content n :
  summarize_document llm order doc_id documents_db
  = (JSONResponse 200 "complete" content n, documents_db') →
  content ≠ EmptyString →
  summarize_document llm' order' doc_id documents_db'
  = (JSONResponse 200 "already_summarized" content None, documents_db').
Proof.
  intros Hfirst Hne.
  destruct (documents_db !! doc_id) as [doc_data|] eqn:Hdb.
  - destruct (summarized_dec doc_data) as [(c & s & Hs)|Hnot].
    + rewrite (summarize_document_cached _ _ _ _ _ _ _ Hdb Hs) in Hfirst. done.
    + rewrite (summarize_document_run _ _ _ _ _ Hdb Hnot) in Hfirst.
      destruct (ainvoke llm order (initial_state doc_id doc_data)) as [final|e left];
        [|done].
      injection Hfirst as <- _ <-.
      destruct (DocumentState.final_summary final) as [|c s] eqn:Hfinal; [done|].
      eapply summarize_document_cached; [apply lookup_insert_eq | done].
  - by rewrite (summarize_document_unknown _ _ _ _ Hdb) in Hfirst.
Qed.

(** X18. A failed run does not block the document: after an answer 500, a
    request served by a model whose calls all succeed answers 200
    ["complete"]. *)
Theorem summarize_document_retry
    llm order llm' order' doc_id documents_db documents_db' doc_data detail :
  documents_db !! doc_id = Some doc_data →
  summarize_document llm order doc_id documents_db
  = (HTTPException 500 detail, documents_db') →
  (∀ p, is_Ok (llm' p)) →
  ∃ content documents_db'',
    summarize_document llm' order' doc_id documents_db'
    = (JSONResponse 200 "complete" content
         (Some (length (DocData.summary_chunks doc_data))), documents_db'')
    ∧ DocData.status <$> documents_db' !! doc_id = Some "error"
    ∧ DocData.status <$> documents_db'' !! doc_id = Some "summarized".
Proof.
  intros Hdb Hfirst Hllm.
  destruct (summarized_dec doc_data) as [(c & s & Hs)|Hnot].
  { rewrite (summarize_document_cached _ _ _ _ _ _ _ Hdb Hs) in Hfirst. done. }
  rewrite (summarize_document_run _ _ _ _ _ Hdb Hnot) in Hfirst.
  destruct (ainvoke llm order (initial_state doc_id doc_data)) as [final|e left];
    [done|].
  injection Hfirst as _ <-.
  set (failed := {| DocData.metadata := DocData.metadata doc_data;
                    DocData.summary_chunks := DocData.summary_chunks doc_data;
                    DocData.status := "error";
                    DocData.summary := DocData.summary doc_data |}).
  destruct (summarize_document_returns llm' order' doc_id
              (<[doc_id := failed]> documents_db) failed) as [content Hsecond].
  { apply lookup_insert_eq. }
  { intros (c & s & Hs). apply Hnot. by exists c, s. }
  { done. }
  simpl in Hsecond. exists content. eexists. split; [exact Hsecond|].
  by rewrite !lookup_insert_eq.
Qed.

(** X19. What [get_summarization_status] reports after a request: after an
    answer ["complete"] the status ["summarized"] and the stored summary;
    after an answer 500 the status ["error"] and the summary the document
    had before. *)
Theorem status_after_summarize
    llm order doc_id documents_db documents_db' doc_data answer :
  documents_db !! doc_id = Some doc_data →
  summarize_document llm order doc_id documents_db = (answer, documents_db') →
  ∃ report,
    get_summarization_status doc_id documents_db' = inr report
    ∧ (∀ content n, answer = JSONResponse 200 "complete" content n →
         StatusReport.status report = "summarized"
         ∧ StatusReport.has_summary report = true
         ∧ StatusReport.summary report = Some content)
    ∧ (∀ detail, answer = HTTPException 500 detail →
         StatusReport.status report = "error"
         ∧ StatusReport.summary report = DocData.summary doc_data).
Proof.
  intros Hdb Hrun. unfold get_summarization_status.
  destruct (summarized_dec doc_data) as [(c & s & Hs)|Hnot].
  - rewrite (summarize_document_cached _ _ _ _ _ _ _ Hdb Hs) in Hrun.
    injection Hrun as <- <-. rewrite Hdb. eexists. split; [done|].
    split; intros; discriminate.
  - rewrite (summarize_document_run _ _ _ _ _ Hdb Hnot) in Hrun.
    destruct (ainvoke llm order (initial_state doc_id doc_data)) as [final|e left];
      injection Hrun as <- <-; rewrite lookup_insert_eq;
      (eexists; split; [done|]; split; [intros ? ? [=] | intros ? [=]]);
      subst; done.
Qed.

(** X20. For a document whose stored summary is the empty text, the status
    endpoint reports [has_summary], yet a request to summarize runs the
    graph again instead of answering ["already_summarized"]. *)
Theorem empty_summary_is_run_again llm order doc_id documents_db doc_data :
  documents_db !! doc_id = Some doc_data →
  DocData.summary doc_data = Some EmptyString →
  (∃ report,
     get_summarization_status doc_id documents_db = inr report
     ∧ StatusReport.has_summary report = true)
  ∧ (∀ text n,
       (summarize_document llm order doc_id documents_db).1
       ≠ JSONResponse 200 "already_summarized" text n)
  ∧ ((∀ p, is_Ok (llm p)) →
     ∃ content n,
       (summarize_document llm order doc_id documents_db).1
       = JSONResponse 200 "complete" content n).
Proof.
  intros Hdb Hs.
  assert (¬ summarized doc_data) as Hnot.
  { intros (c & s & Hcs). rewrite Hs in Hcs. discriminate. }
  split; [|split].
  - unfold get_summarization_status. rewrite Hdb, Hs. by eexists.
  - intros text n. rewrite (summarize_document_run _ _ _ _ _ Hdb Hnot).
    by destruct (ainvoke llm order (initial_state doc_id doc_data)).
  - intros Hllm.
    destruct (summarize_document_returns llm order doc_id documents_db doc_data
                Hdb Hnot Hllm) as [content ->].
    by do 2 eexists.
Qed.

End Endpoint.

(** ** Extracting the pages *)

Section Extraction.

Variable path_exists : string → bool.
Variable path_str : string → string.
Variable PdfReader : string → result (list (result string)).

Local Abbreviation extract_pdf_text' :=
  (extract_pdf_text path_exists path_str PdfReader).

Lemma extract_loop_Ok (texts : list string) (n : nat) (pages_data : list Page.t) :
  extract_loop n (Ok <$> texts) pages_data
  = Ok (pages_data ++ imap (λ i text, extracted_page (n + i) text) texts).
Proof.
  revert n pages_data. induction texts as [|text texts IH]; intros n pages_data.
  - simpl. by rewrite app_nil_r.
  - simpl. rewrite IH, <- app_assoc. simpl. rewrite Nat.add_0_r.
    do 3 f_equal. apply imap_ext. intros i t _. simpl. f_equal. lia.
Qed.

Lemma extract_loop_inv (pages : list (result string)) (n : nat)
    (pages_data result : list Page.t) :
  extract_loop n pages pages_data = Ok result →
  ∃ texts, pages = Ok <$> texts.
Proof.
  revert n pages_data. induction pages as [|page pages IH]; intros n pages_data.
  - intros _. by exists [].
  - simpl. intros (text & -> & Hrest)%bind_Ok_inv.
    apply IH in Hrest as [texts ->]. by exists (text :: texts).
Qed.

Lemma extract_loop_Err (texts : list string) (e : exn) (rest : list (result string))
    (n : nat) (pages_data : list Page.t) :
  extract_loop n ((Ok <$> texts) ++ Err e :: rest) pages_data = Err e.
Proof.
  revert n pages_data. induction texts as [|text texts IH]; intros n pages_data; [done|].
  simpl. apply IH.
Qed.

(** The page numbers [base + 1], [base + 2], ... are strictly ascending. *)
Lemma numbered_sorted (l : list Z) (base : Z) :
  (∀ i x, l !! i = Some x → x = base + Z.of_nat i) → StronglySorted Z.lt l.
Proof.
  revert base. induction l as [|x l IH]; intros base Hl; constructor.
  - apply (IH (base + 1)). intros i y Hy. rewrite (Hl (S i) y Hy). lia.
  - apply Forall_forall. intros y [i Hy]%list_elem_of_lookup.
    rewrite (Hl 0%nat x eq_refl), (Hl (S i) y Hy). lia.
Qed.

(** When [extract_pdf_text] returns, and what. *)
Lemma extract_pdf_text_iff (pdf_path : string) (pages_data : list Page.t) :
  extract_pdf_text' pdf_path = Ok pages_data
  ↔ path_exists pdf_path = true
    ∧ ∃ texts, PdfReader pdf_path = Ok (Ok <$> texts)
               ∧ pages_data = imap extracted_page texts.
Proof.
  unfold extract_pdf_text. split.
  - destruct (path_exists pdf_path); simpl; [|done].
    intros (pages & Hreader & Hloop)%bind_Ok_inv. split; [done|].
    destruct (extract_loop_inv _ _ _ _ Hloop) as [texts ->].
    rewrite extract_loop_Ok in Hloop. injection Hloop as <-.
    by exists texts.
  - intros (-> & texts & -> & ->). apply (extract_loop_Ok texts 0 []).
Qed.

(** X21. [extract_pdf_text] returns pages exactly when the file exists, the
    reader opens it and every page yields its text; the pages are then the
    dictionaries of the texts, in the order of the reader. *)
Theorem extract_pdf_text_Ok (pdf_path : string) (pages_data : list Page.t) :
  extract_pdf_text' pdf_path = Ok pages_data
  ↔ path_exists pdf_path = true
    ∧ ∃ texts, PdfReader pdf_path = Ok (Ok <$> texts)
               ∧ pages_data = imap extracted_page texts.
Proof. split; intros H; by apply extract_pdf_text_iff. Qed.

(** X22. The pages [extract_pdf_text] returns are numbered 1, 2, ... in
    their order, so strictly ascending, and [char_count] and [word_count]
    are the length and the number of words of the text. *)
Theorem extract_pdf_text_numbering (pdf_path : string) (pages_data : list Page.t) :
  extract_pdf_text' pdf_path = Ok pages_data →
  (∀ i page, pages_data !! i = Some page →
     Page.page_number page = Z.of_nat i + 1
     ∧ Page.char_count page = Py.len (Page.text page)
     ∧ Page.word_count page = Z.of_nat (length (PyText.split (Page.text page))))
  ∧ StronglySorted Z.lt (Page.page_number <$> pages_data).
Proof.
  intros (_ & texts & _ & ->)%extract_pdf_text_iff.
  assert (∀ i page, imap extracted_page texts !! i = Some page →
            ∃ text, page = extracted_page i text) as Hpage.
  { intros i page Hi. rewrite list_lookup_imap in Hi.
    destruct (texts !! i) as [text|]; [|done]. injection Hi as <-. by exists text. }
  split.
  - intros i page Hi. by destruct (Hpage _ _ Hi) as [text ->].
  - apply (numbered_sorted _ 1). intros i x Hx.
    rewrite list_lookup_fmap in Hx.
    destruct (imap extracted_page texts !! i) as [page|] eqn:Hi; [|done].
    destruct (Hpage _ _ Hi) as [text ->]. injection Hx as <-. simpl. lia.
Qed.

(** X23. When the text of a page cannot be extracted, [extract_pdf_text]
    raises the exception of the first such page and returns no page. *)
Theorem extract_pdf_text_page_failure
    (pdf_path : string) (texts : list string) (e : exn) (rest : list (result string)) :
  path_exists pdf_path = true →
  PdfReader pdf_path = Ok ((Ok <$> texts) ++ Err e :: rest) →
  extract_pdf_text' pdf_path = Err e.
Proof.
  intros Hexists Hreader. unfold extract_pdf_text.
  by rewrite Hexists, Hreader, bind_Ok, extract_loop_Err.
Qed.

End Extraction.

(** ** Cleaning the text *)

Section Cleaning.

Implicit Types (s t line : string) (c : ascii).

Lemma lstrip_head s :
  lstrip s = EmptyString ∨ ∃ c rest, lstrip s = String c rest ∧ PyText.isspace c = false.
Proof.
  induction s as [|c s IH]; [by left|]. simpl.
  destruct (PyText.isspace c) eqn:Hc; [done|]. right. by exists c, s.
Qed.

Lemma rstrip_head c rest :
  PyText.isspace c = false → ∃ kept, rstrip (String c rest) = String c kept.
Proof. intros Hc. simpl. rewrite Hc. destruct (rstrip rest); by eexists. Qed.

Lemma rstrip_idem s : rstrip (rstrip s) = rstrip s.
Proof.
  induction s as [|c s IH]; [done|]. simpl.
  destruct (rstrip s) as [|k kept] eqn:Hk.
  - destruct (PyText.isspace c) eqn:Hc; [done|]. simpl. by rewrite Hc.
  - change (rstrip (String c (String k kept))) with
      (match rstrip (String k kept) with
       | EmptyString =>
           if PyText.isspace c then EmptyString else String c EmptyString
       | kept' => String c kept'
       end).
    by rewrite IH.
Qed.

Lemma strip_idem s : strip (strip s) = strip s.
Proof.
  unfold strip. destruct (lstrip_head s) as [->|(c & rest & -> & Hc)]; [done|].
  destruct (rstrip_head c rest Hc) as [kept Hk]. rewrite Hk. simpl lstrip.
  rewrite Hc, <- Hk. apply rstrip_idem.
Qed.

(** The characters of a stripped text are characters of the text. *)
Lemma lstrip_chars s c :
  c ∈ list_ascii_of_string (lstrip s) → c ∈ list_ascii_of_string s.
Proof.
  induction s as [|a s IH]; [done|]. simpl.
  destruct (PyText.isspace a); [|done]. intros Hc. right. by apply IH.
Qed.

Lemma rstrip_chars s c :
  c ∈ list_ascii_of_string (rstrip s) → c ∈ list_ascii_of_string s.
Proof.
  induction s as [|a s IH]; [done|]. simpl.
  destruct (rstrip s) as [|k kept].
  - destruct (PyText.isspace a); simpl; [by intros ?%elem_of_nil|].
    intros ->%list_elem_of_singleton. by left.
  - simpl. intros [->|Hc]%elem_of_cons; [by left|]. right. by apply IH.
Qed.

Lemma remove_ff_chars s c :
  c ∈ list_ascii_of_string (remove_ff s) → is_ff c = false.
Proof.
  induction s as [|a s IH]; simpl; [by intros ?%elem_of_nil|].
  destruct (is_ff a) eqn:Ha; [done|]. simpl.
  by intros [->|Hc]%elem_of_cons; [|apply IH].
Qed.

(** X24. The text [clean_text] returns contains no form feed, and has no
    white space at either end: stripping it again changes nothing. *)
Theorem clean_text_stripped (text : string) :
  ("012"%char ∉ list_ascii_of_string (clean_text text))
  ∧ strip (clean_text text) = clean_text text.
Proof.
  unfold clean_text. split; [|apply strip_idem].
  intros Hin. apply rstrip_chars, lstrip_chars, remove_ff_chars in Hin. done.
Qed.

(** No step of [clean_text] makes the text longer. *)
Lemma remove_headers_go_length skip s :
  (String.length (remove_headers_go skip s) ≤ String.length s)%nat.
Proof.
  revert skip. induction s as [|c s IH]; intros skip; [done|].
  change (remove_headers_go skip (String c s)) with
    (match skip with
     | S skip' => remove_headers_go skip' s
     | O => match header_len (String c s) with
            | Some n => remove_headers_go (pred n) s
            | None => String c (remove_headers_go 0 s)
            end
     end).
  destruct skip as [|skip]; [destruct (header_len (String c s)) as [n|]|]; simpl.
  - specialize (IH (pred n)). lia.
  - specialize (IH 0%nat). lia.
  - specialize (IH skip). lia.
Qed.

Lemma squeeze_newlines_go_length seen s :
  (String.length (squeeze_newlines_go seen s) ≤ String.length s)%nat.
Proof.
  revert seen. induction s as [|c s IH]; intros seen; [done|]. simpl.
  destruct (is_nl c); [destruct (seen <? 2)%nat|]; simpl.
  - specialize (IH (S seen)). lia.
  - specialize (IH seen). lia.
  - specialize (IH 0%nat). lia.
Qed.

Lemma squeeze_blanks_go_length in_run s :
  (String.length (squeeze_blanks_go in_run s) ≤ String.length s)%nat.
Proof.
  revert in_run. induction s as [|c s IH]; intros in_run; [done|]. simpl.
  destruct (is_blank c); [destruct in_run|]; simpl.
  - specialize (IH true). lia.
  - specialize (IH true). lia.
  - specialize (IH false). lia.
Qed.

Lemma lstrip_length s : (String.length (lstrip s) ≤ String.length s)%nat.
Proof.
  induction s as [|c s IH]; [done|]. simpl. destruct (PyText.isspace c); simpl; lia.
Qed.

Lemma rstrip_length s : (String.length (rstrip s) ≤ String.length s)%nat.
Proof.
  induction s as [|c s IH]; [done|]. simpl.
  destruct (rstrip s); [destruct (PyText.isspace c)|]; simpl in *; lia.
Qed.

Lemma strip_length s : (String.length (strip s) ≤ String.length s)%nat.
Proof.
  unfold strip. pose proof (rstrip_length (lstrip s)). pose proof (lstrip_length s). lia.
Qed.

Lemma remove_ff_length s : (String.length (remove_ff s) ≤ String.length s)%nat.
Proof.
  induction s as [|c s IH]; [done|]. simpl. destruct (is_ff c); simpl; lia.
Qed.

Lemma app_Empty_r s : s +:+ EmptyString = s.
Proof. induction s as [|a s IH]; [done|]. rewrite app_String. by rewrite IH. Qed.

Lemma rev_app_app s t : String.rev_app s t = String.rev_app s EmptyString +:+ t.
Proof.
  revert t. induction s as [|a s IH]; intros t; [done|]. simpl.
  rewrite (IH (String a t)), (IH (String a EmptyString)).
  by rewrite app_assoc_str.
Qed.

Lemma rev_String a s : String.rev (String a s) = String.rev s +:+ String a EmptyString.
Proof. unfold String.rev. simpl. apply rev_app_app. Qed.

Lemma split_lines_go_nonempty line s : split_lines_go line s ≠ [].
Proof.
  revert line. induction s as [|c s IH]; intros line; simpl; [done|].
  destruct (is_nl c); [done | apply IH].
Qed.

Lemma join_cons sep x l :
  l ≠ [] → Py.join sep (x :: l) = x +:+ sep +:+ Py.join sep l.
Proof. by destruct l. Qed.

Lemma is_nl_eq c : is_nl c = true → c = "010"%char.
Proof.
  unfold is_nl. intros Hc%N.eqb_eq.
  rewrite <- (ascii_N_embedding c), Hc. reflexivity.
Qed.

(** Joining the lines of a text with line feeds gives the text back. *)
Lemma join_split_lines_go line s :
  Py.join Py.nl (split_lines_go line s) = String.rev line +:+ s.
Proof.
  revert line. induction s as [|c s IH]; intros line.
  - simpl. by rewrite app_Empty_r.
  - simpl. destruct (is_nl c) eqn:Hc.
    + rewrite join_cons by apply split_lines_go_nonempty.
      rewrite IH. apply is_nl_eq in Hc as ->. reflexivity.
    + rewrite IH, rev_String. by rewrite app_assoc_str.
Qed.

Lemma join_split_lines s : Py.join Py.nl (split_lines s) = s.
Proof. unfold split_lines. by rewrite join_split_lines_go. Qed.

Lemma join_strip_length (lines : list string) :
  (String.length (Py.join Py.nl (strip <$> lines))
   ≤ String.length (Py.join Py.nl lines))%nat.
Proof.
  induction lines as [|line lines IH]; [done|].
  destruct lines as [|next lines].
  - simpl. apply strip_length.
  - rewrite fmap_cons. rewrite !join_cons by done.
    rewrite !str_length_app. pose proof (strip_length line). lia.
Qed.

(** The steps of [clean_text] together. *)
Lemma clean_text_shorter (text : string) :
  Py.len (clean_text text) ≤ Py.len text.
Proof.
  unfold clean_text, Py.len. apply inj_le.
  etrans; [apply strip_length|]. etrans; [apply remove_ff_length|].
  etrans; [apply join_strip_length|]. rewrite join_split_lines.
  etrans; [apply squeeze_blanks_go_length|].
  etrans; [apply squeeze_newlines_go_length|]. apply remove_headers_go_length.
Qed.

(** X25. [clean_text] never returns a text longer than the one it was
    given. *)
Theorem clean_text_length (text : string) :
  Py.len (clean_text text) ≤ Py.len text.
Proof. pose proof (clean_text_shorter text). lia. Qed.

(** X26. [clean_pages] returns as many pages, with the same page numbers in
    the same order; every page has the cleaned text, and [char_count] is its
    length, at most the length of the text before. *)
Theorem clean_pages_pages (pages_data : list Page.t) :
  length (clean_pages pages_data) = length pages_data
  ∧ Page.page_number <$> clean_pages pages_data = Page.page_number <$> pages_data
  ∧ ∀ i page cleaned,
      pages_data !! i = Some page → clean_pages pages_data !! i = Some cleaned →
      Page.text cleaned = clean_text (Page.text page)
      ∧ Page.char_count cleaned = Py.len (Page.text cleaned)
      ∧ Page.char_count cleaned ≤ Py.len (Page.text page).
Proof.
  unfold clean_pages. split; [apply length_fmap|]. split.
  - rewrite <- list_fmap_compose. by apply list_fmap_ext.
  - intros i page cleaned Hp Hc. rewrite list_lookup_fmap, Hp in Hc.
    injection Hc as <-. simpl. repeat split. apply clean_text_shorter.
Qed.

End Cleaning.

(** ** From the file to the chunks *)

Section Upload.

Context {Encoding : Type}.
Variable path_exists : string → bool.
Variable path_str : string → string.
Variable PdfReader : string → result (list (result string)).
Variable encoding_for_model : string → result Encoding.
Variable encode : Encoding → string → result (list nat).
Variable split_text : Z → Z → string → result (list string).

(** The pages that reach the chunkers are numbered 1, 2, ... *)
Lemma cleaned_pages_numbered (pdf_path : string) (pages_data : list Page.t) :
  extract_pdf_text path_exists path_str PdfReader pdf_path = Ok pages_data →
  StronglySorted Z.lt (Page.page_number <$> clean_pages pages_data)
  ∧ ∀ p, p ∈ Page.page_number <$> clean_pages pages_data →
      1 ≤ p ≤ Z.of_nat (length pages_data).
Proof.
  intros (_ & texts & _ & ->)%extract_pdf_text_iff.
  assert (Page.page_number <$> clean_pages (imap extracted_page texts)
          = imap (λ i _, Z.of_nat i + 1) texts) as ->.
  { unfold clean_pages. rewrite <- list_fmap_compose, fmap_imap.
    by apply imap_ext. }
  rewrite length_imap. split.
  - apply (numbered_sorted _ 1). intros i x Hx. rewrite list_lookup_imap in Hx.
    destruct (texts !! i); [|done]. injection Hx as <-. lia.
  - intros p [i Hp]%list_elem_of_lookup. rewrite list_lookup_imap in Hp.
    destruct (texts !! i) eqn:Hi; [|done]. injection Hp as <-.
    apply lookup_lt_Some in Hi. lia.
Qed.

(** X27. As [upload_document] chains them: for the pages extracted from a
    file and cleaned, every chunk of either chunker has page numbers that
    are strictly ascending and lie between 1 and the number of pages. *)
Theorem uploaded_chunks_page_numbers
    (pdf_path : string) (pages_data : list Page.t)
    (rag_size rag_overlap summary_size summary_overlap : Z)
    (document_id : option string)
    (rag_chunks : list RagChunk.t) (summary_chunks : list SummaryChunk.t) :
  extract_pdf_text path_exists path_str PdfReader pdf_path = Ok pages_data →
  create_rag_chunks encoding_for_model encode split_text
    (clean_pages pages_data) rag_size rag_overlap document_id = Ok rag_chunks →
  create_summary_chunks encoding_for_model encode split_text
    (clean_pages pages_data) summary_size summary_overlap document_id
  = Ok summary_chunks →
  (∀ c, c ∈ rag_chunks →
     StronglySorted Z.lt (RagChunk.page_numbers c)
     ∧ ∀ p, p ∈ RagChunk.page_numbers c → 1 ≤ p ≤ Z.of_nat (length pages_data))
  ∧ (∀ c, c ∈ summary_chunks →
       StronglySorted Z.lt (SummaryChunk.page_numbers c)
       ∧ ∀ p, p ∈ SummaryChunk.page_numbers c →
           1 ≤ p ≤ Z.of_nat (length pages_data)).
Proof.
  intros [Hsorted Hbound]%cleaned_pages_numbered Hrag Hsum. split.
  - apply create_rag_chunks_inv in Hrag as (segments & _ & _ & Hc).
    intros c [j Hj]%list_elem_of_lookup.
    destruct (Hc _ _ Hj) as (t & at_ & _ & _ & _ & _ & _ & _ & -> & _).
    pose proof (overlapping_sublist (clean_pages pages_data)
                  (Py.find (consolidate (clean_pages pages_data)).1 t at_)
                  (Py.find (consolidate (clean_pages pages_data)).1 t at_ + Py.len t))
      as Hsub.
    split; [by eapply StronglySorted_sublist|].
    intros p Hp. apply Hbound. by eapply elem_of_sublist.
  - apply create_summary_chunks_inv' in Hsum as (segments & _ & _ & Hc).
    intros c [j Hj]%list_elem_of_lookup.
    destruct (Hc _ _ Hj) as (t & at_ & _ & _ & _ & _ & _ & _ & -> & _).
    pose proof (overlapping_sublist (clean_pages pages_data)
                  (Py.find (consolidate (clean_pages pages_data)).1 t at_)
                  (Py.find (consolidate (clean_pages pages_data)).1 t at_ + Py.len t))
      as Hsub.
    split; [by eapply StronglySorted_sublist|].
    intros p Hp. apply Hbound. by eapply elem_of_sublist.
Qed.

End Upload.

(** ** The properties above on concrete inputs *)

Lemma overlapping_nonempty_witness :
  overlapping (consolidate three_pages).2 4 7 ≠ [].
Proof.
  apply (overlapping_nonempty three_pages 4 7); [|lia].
  change (Py.len (consolidate three_pages).1) with 15. lia.
Defined.

Lemma overlapping_within_page_witness :
  overlapping (consolidate three_pages).2 5 7 = [Page.page_number (page_of 2 "de")].
Proof.
  apply (overlapping_within_page three_pages 1 (page_of 2 "de") (Marker.mk 2 5 9) 5 7);
    try reflexivity; simpl; lia.
Defined.

Lemma create_rag_chunks_shape_witness :
  ∃ segments,
    splitter_of three_segments 1000 100 (consolidate three_pages).1 = Ok segments
    ∧ length three_rag_chunks = length segments
    ∧ ∀ j c, three_rag_chunks !! j = Some c →
        RagChunk.chunk_index c = j
        ∧ segments !! j = Some (RagChunk.text c)
        ∧ RagChunk.char_count c = Py.len (RagChunk.text c)
        ∧ count_tokens_default encoding_ok encode_chars (RagChunk.text c)
          = Ok (RagChunk.token_count c)
        ∧ RagChunk.page_number c = head (RagChunk.page_numbers c)
        ∧ RagChunk.document_id c = Some "doc"
        ∧ RagChunk.chunk_type c = "rag".
Proof.
  apply (create_rag_chunks_shape encoding_ok encode_chars (splitter_of three_segments)
           three_pages 1000 100 (Some "doc") three_rag_chunks).
  reflexivity.
Defined.

Lemma create_summary_chunks_shape_witness :
  ∃ segments,
    splitter_of three_segments 1000 100 (consolidate three_pages).1 = Ok segments
    ∧ length three_summary_chunks = length segments
    ∧ ∀ j c, three_summary_chunks !! j = Some c →
        SummaryChunk.chunk_index c = j
        ∧ segments !! j = Some (SummaryChunk.text c)
        ∧ SummaryChunk.char_count c = Py.len (SummaryChunk.text c)
        ∧ count_tokens_default encoding_ok encode_chars (SummaryChunk.text c)
          = Ok (SummaryChunk.token_count c)
        ∧ is_Some (SummaryChunk.page_range c)
        ∧ SummaryChunk.document_id c = Some "doc"
        ∧ SummaryChunk.chunk_type c = "summary".
Proof.
  apply (create_summary_chunks_shape encoding_ok encode_chars
           (splitter_of three_segments) three_pages 1000 100 (Some "doc")
           three_summary_chunks).
  reflexivity.
Defined.

Lemma three_pages_sorted : StronglySorted Z.lt (Page.page_number <$> three_pages).
Proof. simpl. repeat (constructor; [|repeat constructor; lia]). constructor. Qed.

Lemma rag_page_numbers_in_page_order_witness :
  RagChunk.page_numbers rag_chunk_de `sublist_of` (Page.page_number <$> three_pages)
  ∧ StronglySorted Z.lt (RagChunk.page_numbers rag_chunk_de).
Proof.
  apply (rag_page_numbers_in_page_order encoding_ok encode_chars
           (splitter_of three_segments) three_pages 1000 100 (Some "doc")
           three_rag_chunks rag_chunk_de eq_refl);
    [|apply three_pages_sorted].
  apply list_elem_of_lookup. by exists 1%nat.
Defined.

Lemma summary_page_numbers_in_page_order_witness :
  SummaryChunk.page_numbers summary_chunk_de
    `sublist_of` (Page.page_number <$> three_pages)
  ∧ StronglySorted Z.lt (SummaryChunk.page_numbers summary_chunk_de).
Proof.
  apply (summary_page_numbers_in_page_order encoding_ok encode_chars
           (splitter_of three_segments) three_pages 1000 100 (Some "doc")
           three_summary_chunks summary_chunk_de eq_refl);
    [|apply three_pages_sorted].
  apply list_elem_of_lookup. by exists 1%nat.
Defined.

Lemma found_segment_has_page_witness :
  ∃ c p,
    rag_after_de = [rag_chunk_abc] ++ [c]
    ∧ RagChunk.text c = "de"
    ∧ RagChunk.page_number c = Some p
    ∧ p ∈ Page.page_number <$> three_pages.
Proof.
  apply (found_segment_has_page encoding_ok encode_chars three_pages None
           ["abc"] "de" [rag_chunk_abc] 1 rag_after_de 6);
    try reflexivity; [discriminate | by vm_compute].
Defined.

Lemma found_segment_has_page_range_witness :
  ∃ c,
    summary_after_de = [summary_chunk_abc] ++ [c]
    ∧ SummaryChunk.text c = "de"
    ∧ SummaryChunk.page_numbers c ≠ []
    ∧ SummaryChunk.page_range c ≠ Some "Unknown".
Proof.
  apply (found_segment_has_page_range encoding_ok encode_chars three_pages None
           ["abc"] "de" [summary_chunk_abc] 1 summary_after_de 6);
    try reflexivity; [discriminate | by vm_compute].
Defined.

Lemma chunkers_agree_witness :
  length three_rag_chunks = length three_summary_chunks
  ∧ ∀ j r s, three_rag_chunks !! j = Some r → three_summary_chunks !! j = Some s →
      RagChunk.text r = SummaryChunk.text s
      ∧ RagChunk.page_numbers r = SummaryChunk.page_numbers s
      ∧ RagChunk.token_count r = SummaryChunk.token_count s
      ∧ SummaryChunk.page_range s = Some (page_range_of (RagChunk.page_numbers r)).
Proof.
  apply (chunkers_agree encoding_ok encode_chars (splitter_of three_segments)
           three_pages 1000 100 (Some "doc") (Some "doc")); reflexivity.
Defined.

Lemma ainvoke_complete_witness :
  ∃ final,
    ainvoke llm_echo [1; 0]%nat two_chunk_state = Returned final
    ∧ DocumentState.status final = "complete"
    ∧ DocumentState.total_chunks final = 2%nat
    ∧ DocumentState.summaries_completed final = 2%nat
    ∧ Forall2 (λ chunk summary, summarize_chunk_async llm_echo chunk 2 = Ok summary)
        [chunk_a; chunk_b] (DocumentState.chunk_summaries final)
    ∧ llm_echo (SynthesisPrompt "Report" "2" 2
                  (Py.join (Py.sep +:+ "---" +:+ Py.sep)
                     (imap section_label (DocumentState.chunk_summaries final))))
      = Ok (DocumentState.final_summary final)
    ∧ DocumentState.document_id final = "doc"
    ∧ DocumentState.document_metadata final = Metadata.mk (Some "Report") (Some 2)
    ∧ DocumentState.large_chunks final = [chunk_a; chunk_b]
    ∧ DocumentState.error_message final = None.
Proof.
  apply (ainvoke_complete llm_echo [1; 0]%nat two_chunk_state).
  - intros chunk Hin. by eexists.
  - intros title page_count n text. by eexists.
Defined.

Lemma ainvoke_synthesis_failure_witness :
  ∃ left,
    ainvoke llm_no_synthesis [0; 1]%nat two_chunk_state
    = Raised (Exception "context too long") left
    ∧ DocumentState.status left = "reducing"
    ∧ Forall2 (λ chunk summary,
                 summarize_chunk_async llm_no_synthesis chunk 2 = Ok summary)
        [chunk_a; chunk_b] (DocumentState.chunk_summaries left)
    ∧ DocumentState.summaries_completed left = 2%nat
    ∧ DocumentState.final_summary left = EmptyString
    ∧ DocumentState.error_message left = None.
Proof.
  apply (ainvoke_synthesis_failure llm_no_synthesis [0; 1]%nat two_chunk_state
           (Exception "context too long")).
  - intros chunk Hin. by eexists.
  - reflexivity.
Defined.

Lemma ainvoke_without_chunks_witness :
  ∃ final,
    ainvoke llm_echo [] empty_document_state = Returned final
    ∧ DocumentState.status final = "complete"
    ∧ DocumentState.final_summary final = EmptyString
    ∧ DocumentState.chunk_summaries final = []
    ∧ DocumentState.summaries_completed final = 0%nat
    ∧ DocumentState.total_chunks final = 0%nat.
Proof.
  apply (ainvoke_without_chunks llm_echo [] empty_document_state EmptyString);
    reflexivity.
Defined.

Lemma one_document_lookup : one_document !! "doc" = Some uploaded_doc.
Proof. apply lookup_singleton_eq. Qed.

Lemma uploaded_not_summarized : ¬ summarized uploaded_doc.
Proof. by intros (c & s & [=]). Qed.

Lemma summarize_document_keeps_upload_witness :
  ∃ doc_data',
    (summarize_document llm_flaky [0; 1]%nat "doc" one_document).2 !! "doc"
    = Some doc_data'
    ∧ DocData.metadata doc_data' = DocData.metadata uploaded_doc
    ∧ DocData.summary_chunks doc_data' = DocData.summary_chunks uploaded_doc.
Proof.
  apply (summarize_document_keeps_upload llm_flaky [0; 1]%nat "doc" one_document
           uploaded_doc one_document_lookup).
Defined.

Lemma summarize_document_complete_witness :
  ∃ final,
    ainvoke llm_echo [0; 1]%nat (initial_state "doc" uploaded_doc) = Returned final
    ∧ Forall2 (λ chunk summary, summarize_chunk_async llm_echo chunk 2 = Ok summary)
        [chunk_a; chunk_b] (DocumentState.chunk_summaries final)
    ∧ llm_echo (SynthesisPrompt "Report" "2" 2
                  (Py.join (Py.sep +:+ "---" +:+ Py.sep)
                     (imap section_label (DocumentState.chunk_summaries final))))
      = Ok (DocumentState.final_summary final)
    ∧ summarize_document llm_echo [0; 1]%nat "doc" one_document
      = (JSONResponse 200 "complete" (DocumentState.final_summary final) (Some 2%nat),
         <["doc" := {| DocData.metadata := DocData.metadata uploaded_doc;
                       DocData.summary_chunks := DocData.summary_chunks uploaded_doc;
                       DocData.status := "summarized";
                       DocData.summary :=
                         Some (DocumentState.final_summary final) |}]>
           one_document).
Proof.
  apply (summarize_document_complete llm_echo [0; 1]%nat "doc" one_document
           uploaded_doc one_document_lookup uploaded_not_summarized).
  intros p. destruct p; by eexists.
Defined.

Lemma echo_run :
  summarize_document llm_echo [0; 1]%nat "doc" one_document
  = (JSONResponse 200 "complete" echo_summary (Some 2%nat),
     <["doc" := summarized_doc]> one_document).
Proof.
  rewrite (summarize_document_run _ _ _ _ _ one_document_lookup
             uploaded_not_summarized).
  reflexivity.
Qed.

Lemma flaky_run :
  summarize_document llm_flaky [0; 1]%nat "doc" one_document
  = (HTTPException 500 "Error during summarization: rate limit",
     <["doc" := failed_doc]> one_document).
Proof.
  rewrite (summarize_document_run _ _ _ _ _ one_document_lookup
             uploaded_not_summarized).
  reflexivity.
Qed.

Lemma summarize_document_twice_witness :
  summarize_document llm_flaky [1; 0]%nat "doc" (<["doc" := summarized_doc]> one_document)
  = (JSONResponse 200 "already_summarized" echo_summary None,
     <["doc" := summarized_doc]> one_document).
Proof.
  apply (summarize_document_twice llm_echo [0; 1]%nat llm_flaky [1; 0]%nat "doc"
           one_document _ echo_summary (Some 2%nat) echo_run).
  discriminate.
Defined.

Lemma summarize_document_retry_witness :
  ∃ content documents_db'',
    summarize_document llm_echo [0; 1]%nat "doc" (<["doc" := failed_doc]> one_document)
    = (JSONResponse 200 "complete" content (Some 2%nat), documents_db'')
    ∧ DocData.status <$> (<["doc" := failed_doc]> one_document) !! "doc"
      = Some "error"
    ∧ DocData.status <$> documents_db'' !! "doc" = Some "summarized".
Proof.
  apply (summarize_document_retry llm_flaky [0; 1]%nat llm_echo [0; 1]%nat "doc"
           one_document _ uploaded_doc _ one_document_lookup flaky_run).
  intros p. destruct p; by eexists.
Defined.

Lemma status_after_summarize_witness :
  ∃ report,
    get_summarization_status "doc" (<["doc" := summarized_doc]> one_document)
    = inr report
    ∧ (∀ content n,
         JSONResponse 200 "complete" echo_summary (Some 2%nat)
         = JSONResponse 200 "complete" content n →
         StatusReport.status report = "summarized"
         ∧ StatusReport.has_summary report = true
         ∧ StatusReport.summary report = Some content)
    ∧ (∀ detail,
         JSONResponse 200 "complete" echo_summary (Some 2%nat)
         = HTTPException 500 detail →
         StatusReport.status report = "error"
         ∧ StatusReport.summary report = DocData.summary uploaded_doc).
Proof.
  apply (status_after_summarize llm_echo [0; 1]%nat "doc" one_document _
           uploaded_doc _ one_document_lookup echo_run).
Defined.

Lemma empty_summary_is_run_again_witness :
  (∃ report,
     get_summarization_status "doc" {[ "doc" := silent_doc ]} = inr report
     ∧ StatusReport.has_summary report = true)
  ∧ (∀ text n,
       (summarize_document llm_silent [0; 1]%nat "doc" {[ "doc" := silent_doc ]}).1
       ≠ JSONResponse 200 "already_summarized" text n)
  ∧ ((∀ p, is_Ok (llm_silent p)) →
     ∃ content n,
       (summarize_document llm_silent [0; 1]%nat "doc" {[ "doc" := silent_doc ]}).1
       = JSONResponse 200 "complete" content n).
Proof.
  apply (empty_summary_is_run_again llm_silent [0; 1]%nat "doc"
           {[ "doc" := silent_doc ]} silent_doc).
  - apply lookup_singleton_eq.
  - reflexivity.
Defined.

Lemma extract_pdf_text_numbering_witness :
  (∀ i page, two_extracted !! i = Some page →
     Page.page_number page = Z.of_nat i + 1
     ∧ Page.char_count page = Py.len (Page.text page)
     ∧ Page.word_count page = Z.of_nat (length (PyText.split (Page.text page))))
  ∧ StronglySorted Z.lt (Page.page_number <$> two_extracted).
Proof.
  apply (extract_pdf_text_numbering only_report same_path reader_two_pages
           "report.pdf" two_extracted).
  reflexivity.
Defined.

Lemma extract_pdf_text_page_failure_witness :
  extract_pdf_text only_report same_path reader_broken "report.pdf"
  = Err (Exception "damaged page").
Proof.
  apply (extract_pdf_text_page_failure only_report same_path reader_broken
           "report.pdf" ["first page"] (Exception "damaged page") [Ok "third"]);
    reflexivity.
Defined.

Lemma uploaded_chunks_page_numbers_witness :
  (∀ c, c ∈ two_rag_chunks →
     StronglySorted Z.lt (RagChunk.page_numbers c)
     ∧ ∀ p, p ∈ RagChunk.page_numbers c → 1 ≤ p ≤ Z.of_nat (length two_extracted))
  ∧ (∀ c, c ∈ two_summary_chunks →
       StronglySorted Z.lt (SummaryChunk.page_numbers c)
       ∧ ∀ p, p ∈ SummaryChunk.page_numbers c →
           1 ≤ p ≤ Z.of_nat (length two_extracted)).
Proof.
  apply (uploaded_chunks_page_numbers only_report same_path reader_two_pages
           encoding_ok encode_chars (splitter_of two_segments)
           "report.pdf" two_extracted 1000 100 15000 500 (Some "doc")
           two_rag_chunks two_summary_chunks); reflexivity.
Defined.
